(** * Health scoring, risk labelling and recommendation rules

    A shallow embedding of the rule-based core of the health monitoring
    application:

    - [calculate_health_score]      (src/core/health_data.py)
    - [create_risk_labels]          (src/core/ml_models.py, HealthRiskClassifier)
    - [generate_recommendations]    (src/core/ml_models.py, HealthRecommendationEngine)

    Records are Python dictionaries (pandas rows for the first two
    functions); they are modelled as finite maps from field names to
    dynamically typed Python values.  Integers are unbounded ([Z]),
    floats are IEEE 754 binary64 values (the kernel's primitive floats),
    and every operation that can raise in Python returns in the error
    monad [res]. *)

From Stdlib Require Import ZArith Lia Floats.
From stdpp Require Import gmap strings list fin_maps.

Set Warnings "-inexact-float".
Open Scope Z_scope.

(** ** Python values and their comparisons *)

Module Py.

Inductive num : Type :=
  | NInt (z : Z)
  | NFloat (f : float).

Inductive pyval : Type :=
  | PyNum (n : num)
  | PyStr (s : string)
  | PyNone.

Inductive exn : Type :=
  | KeyError (key : string)
  | TypeError.

Inductive res (A : Type) : Type :=
  | Ok (a : A)
  | Raise (e : exn).

Arguments Ok {A} a.
Arguments Raise {A} e.

Definition bind {A B} (m : res A) (k : A → res B) : res B :=
  match m with
  | Ok a => k a
  | Raise e => Raise e
  end.

Declare Scope res_scope.
Delimit Scope res_scope with res.
Notation "x ← m ; k" := (bind m (fun x => k))
  (at level 20, m at level 100, k at level 200, only parsing) : res_scope.
Open Scope res_scope.

#[global] Instance res_ret : MRet res := @Ok.
#[global] Instance res_bind : MBind res := λ A B k m, bind m k.

Definition is_ok {A} (r : res A) : bool :=
  match r with Ok _ => true | Raise _ => false end.

Definition int (z : Z) : pyval := PyNum (NInt z).
Definition flt (f : float) : pyval := PyNum (NFloat f).

(** Python compares an [int] with a [float] exactly, as real numbers.
    [Z_SF_compare z y] compares the integer [z] with the float whose
    decoded form is [y]; a finite float is [(-1)^s * m * 2^e]. *)
Definition Z_SF_compare (z : Z) (y : spec_float) : option comparison :=
  match y with
  | S754_nan => None
  | S754_infinity s => Some (if s then Gt else Lt)
  | S754_zero _ => Some (z ?= 0)
  | S754_finite s m e =>
      let n := if s then Z.neg m else Z.pos m in
      Some (if 0 <=? e then z ?= n * 2 ^ e else z * 2 ^ (- e) ?= n)
  end.

Definition float_cmp (c : float_comparison) : option comparison :=
  match c with
  | FEq => Some Eq
  | FLt => Some Lt
  | FGt => Some Gt
  | FNotComparable => None
  end.

(** The order of two numbers; [None] when one of them is NaN. *)
Definition num_compare (a b : num) : option comparison :=
  match a, b with
  | NInt x, NInt y => Some (x ?= y)
  | NFloat f, NFloat g => float_cmp (PrimFloat.compare f g)
  | NInt x, NFloat g => Z_SF_compare x (Prim2SF g)
  | NFloat f, NInt y => option_map CompOpp (Z_SF_compare y (Prim2SF f))
  end.

Definition num_lt (a b : num) : bool :=
  match num_compare a b with Some Lt => true | _ => false end.
Definition num_le (a b : num) : bool :=
  match num_compare a b with Some Lt | Some Eq => true | _ => false end.
Definition num_gt (a b : num) : bool :=
  match num_compare a b with Some Gt => true | _ => false end.
Definition num_ge (a b : num) : bool :=
  match num_compare a b with Some Gt | Some Eq => true | _ => false end.
Definition num_eq (a b : num) : bool :=
  match num_compare a b with Some Eq => true | _ => false end.

Definition num_nan (a : num) : bool :=
  match a with NInt _ => false | NFloat f => PrimFloat.is_nan f end.

(** [a < b], [a <= b], [a > b], [a >= b]: numbers are ordered, strings
    are ordered among themselves, everything else raises TypeError. *)
Definition py_lt (a b : pyval) : res bool :=
  match a, b with
  | PyNum x, PyNum y => Ok (num_lt x y)
  | PyStr s, PyStr t => Ok (String.ltb s t)
  | _, _ => Raise TypeError
  end.
Definition py_le (a b : pyval) : res bool :=
  match a, b with
  | PyNum x, PyNum y => Ok (num_le x y)
  | PyStr s, PyStr t => Ok (String.leb s t)
  | _, _ => Raise TypeError
  end.
Definition py_gt (a b : pyval) : res bool :=
  match a, b with
  | PyNum x, PyNum y => Ok (num_gt x y)
  | PyStr s, PyStr t => Ok (String.ltb t s)
  | _, _ => Raise TypeError
  end.
Definition py_ge (a b : pyval) : res bool :=
  match a, b with
  | PyNum x, PyNum y => Ok (num_ge x y)
  | PyStr s, PyStr t => Ok (String.leb t s)
  | _, _ => Raise TypeError
  end.

(** [a == b] never raises. *)
Definition py_eq (a b : pyval) : bool :=
  match a, b with
  | PyNum x, PyNum y => num_eq x y
  | PyStr s, PyStr t => String.eqb s t
  | PyNone, PyNone => true
  | _, _ => false
  end.

(** Short-circuit [and] / [or] over conditions that may raise. *)
Definition py_and (a b : res bool) : res bool :=
  x ← a; if x then b else Ok false.
Definition py_or (a b : res bool) : res bool :=
  x ← a; if x then Ok true else b.

(** [row[k]] raises KeyError on a missing key; [d.get(k, dflt)] does not. *)
Definition item (row : gmap string pyval) (k : string) : res pyval :=
  match row !! k with
  | Some v => Ok v
  | None => Raise (KeyError k)
  end.
Definition get (d : gmap string pyval) (k : string) (dflt : pyval) : pyval :=
  default dflt (d !! k).

End Py.

Import Py.
Open Scope res_scope.

(** ** src/core/health_data.py *)

Module HealthData.

Definition calculate_health_score (row : gmap string pyval) : res Z :=
  let score := 100 in
  (* Heart rate scoring *)
  score ←
    (c ← (x ← item row "heart_rate"; py_and (py_le (int 60) x) (py_le x (int 100)));
     if c then Ok (score + 0)
     else
       c ← py_or
             (x ← item row "heart_rate"; py_and (py_le (int 50) x) (py_lt x (int 60)))
             (x ← item row "heart_rate"; py_and (py_lt (int 100) x) (py_le x (int 120)));
       if c then Ok (score - 10) else Ok (score - 25));
  (* Blood oxygen scoring *)
  score ←
    (c ← (x ← item row "blood_oxygen"; py_ge x (int 95));
     if c then Ok (score + 0)
     else
       c ← (x ← item row "blood_oxygen"; py_and (py_le (int 90) x) (py_lt x (int 95)));
       if c then Ok (score - 15) else Ok (score - 30));
  (* Temperature scoring *)
  score ←
    (c ← (x ← item row "temperature"; py_and (py_le (flt 36.1) x) (py_le x (flt 37.2)));
     if c then Ok (score + 0)
     else
       c ← py_or
             (x ← item row "temperature"; py_and (py_le (flt 35.5) x) (py_lt x (flt 36.1)))
             (x ← item row "temperature"; py_and (py_lt (flt 37.2) x) (py_le x (flt 38.0)));
       if c then Ok (score - 10) else Ok (score - 20));
  Ok (Z.max 0 (Z.min 100 score)).

End HealthData.

(** ** src/core/ml_models.py *)

Module MlModels.

(** *** HealthRiskClassifier.create_risk_labels *)

(** The body of the loop up to the classification: the value of
    [risk_score] for one row. *)
Definition row_risk_score (row : gmap string pyval) : res Z :=
  let risk_score := 0 in
  (* Heart rate risk *)
  risk_score ←
    (c ← py_or (x ← item row "heart_rate"; py_lt x (int 50))
               (x ← item row "heart_rate"; py_gt x (int 120));
     if c then Ok (risk_score + 2)
     else
       c ← py_or (x ← item row "heart_rate"; py_lt x (int 60))
                 (x ← item row "heart_rate"; py_gt x (int 100));
       if c then Ok (risk_score + 1) else Ok risk_score);
  (* Blood oxygen risk *)
  risk_score ←
    (c ← (x ← item row "blood_oxygen"; py_lt x (int 90));
     if c then Ok (risk_score + 2)
     else
       c ← (x ← item row "blood_oxygen"; py_lt x (int 95));
       if c then Ok (risk_score + 1) else Ok risk_score);
  (* Temperature risk *)
  risk_score ←
    (c ← py_or (x ← item row "temperature"; py_lt x (flt 35.5))
               (x ← item row "temperature"; py_gt x (flt 38.0));
     if c then Ok (risk_score + 2)
     else
       c ← py_or (x ← item row "temperature"; py_lt x (flt 36.1))
                 (x ← item row "temperature"; py_gt x (flt 37.5));
       if c then Ok (risk_score + 1) else Ok risk_score);
  Ok risk_score.

(** Classify risk level: 2 is High Risk, 1 is Medium Risk, 0 is Low Risk. *)
Definition risk_label (risk_score : Z) : Z :=
  if 4 <=? risk_score then 2
  else if 2 <=? risk_score then 1
  else 0.

Definition row_risk_label (row : gmap string pyval) : res Z :=
  risk_score ← row_risk_score row; Ok (risk_label risk_score).

(** One label per row of the data frame, in row order. *)
Definition create_risk_labels (df : list (gmap string pyval)) : res (list Z) :=
  mapM row_risk_label df.

Definition risk_levels : list string := ["Low Risk"; "Medium Risk"; "High Risk"].

(** *** HealthRecommendationEngine.generate_recommendations *)

(** The advisory strings, byte for byte as the source file has them. *)
Definition msg_hr_low : string :=
  "‚ö†Ô∏è Your heart rate is low. Consider consulting a healthcare provider if this persists.".
Definition msg_hr_low_tip : string :=
  "üí° Avoid sudden strenuous activities.".
Definition msg_hr_high : string :=
  "‚ö†Ô∏è Your heart rate is elevated. Try relaxation techniques like deep breathing.".
Definition msg_hr_high_tip : string :=
  "üí° Reduce caffeine intake and ensure adequate hydration.".
Definition msg_spo2_low : string :=
  "‚ö†Ô∏è Blood oxygen is below normal. Ensure good ventilation and avoid strenuous activities.".
Definition msg_spo2_critical : string :=
  "üö® URGENT: Seek immediate medical attention - oxygen levels critically low!".
Definition msg_temp_high : string :=
  "‚ö†Ô∏è Elevated temperature detected. Stay hydrated and monitor closely.".
Definition msg_temp_fever : string :=
  "üö® Fever detected. Consider taking fever-reducing medication and consult a doctor.".
Definition msg_temp_low : string :=
  "‚ö†Ô∏è Body temperature is low. Warm up and monitor for hypothermia symptoms.".
Definition msg_activity_low : string :=
  "üí™ Try to increase physical activity gradually - aim for 30 minutes daily.".
Definition msg_activity_high : string :=
  "‚ö†Ô∏è Consider moderating intense activity given your current health metrics.".
Definition msg_risk_high : string :=
  "üö® HIGH RISK ALERT: Schedule an immediate consultation with your healthcare provider.".
Definition msg_risk_high_tip : string :=
  "üì± Consider emergency services if symptoms worsen.".
Definition msg_risk_medium : string :=
  "‚ö†Ô∏è Schedule a check-up with your healthcare provider within 24-48 hours.".
Definition msg_risk_medium_tip : string :=
  "üìä Continue monitoring your vitals closely.".
Definition msg_risk_low : string :=
  "‚úÖ Your vitals look good! Maintain healthy lifestyle habits.".
Definition msg_risk_low_tip : string :=
  "üíß Stay hydrated and get adequate rest.".
Definition msg_anomaly : string :=
  "‚ö†Ô∏è Unusual pattern detected in your health data. Monitor closely and consult a doctor if concerned.".

Definition generate_recommendations
    (health_data : gmap string pyval) (anomaly_status risk_level : string)
    : res (list string) :=
  let recommendations := [] in
  (* Heart rate recommendations *)
  let hr := get health_data "heart_rate" (int 0) in
  recommendations ←
    (c ← py_lt hr (int 60);
     if c then Ok (recommendations ++ [msg_hr_low] ++ [msg_hr_low_tip])
     else
       c ← py_gt hr (int 100);
       if c then Ok (recommendations ++ [msg_hr_high] ++ [msg_hr_high_tip])
       else Ok recommendations);
  (* Blood oxygen recommendations *)
  let spo2 := get health_data "blood_oxygen" (int 100) in
  recommendations ←
    (c ← py_lt spo2 (int 95);
     if c then
       let recommendations := recommendations ++ [msg_spo2_low] in
       c ← py_lt spo2 (int 90);
       if c then Ok (recommendations ++ [msg_spo2_critical])
       else Ok recommendations
     else Ok recommendations);
  (* Temperature recommendations *)
  let temp := get health_data "temperature" (flt 36.5) in
  recommendations ←
    (c ← py_gt temp (flt 37.5);
     if c then
       let recommendations := recommendations ++ [msg_temp_high] in
       c ← py_gt temp (flt 38.0);
       if c then Ok (recommendations ++ [msg_temp_fever])
       else Ok recommendations
     else
       c ← py_lt temp (flt 36.0);
       if c then Ok (recommendations ++ [msg_temp_low])
       else Ok recommendations);
  (* Activity recommendations *)
  let activity := get health_data "activity_level" (PyStr "moderate") in
  let recommendations :=
    if py_eq activity (PyStr "low") then recommendations ++ [msg_activity_low]
    else if py_eq activity (PyStr "high")
            && existsb (String.eqb risk_level) ["Medium Risk"; "High Risk"]
    then recommendations ++ [msg_activity_high]
    else recommendations in
  (* General recommendations based on risk level *)
  let recommendations :=
    if String.eqb risk_level "High Risk"
    then recommendations ++ [msg_risk_high] ++ [msg_risk_high_tip]
    else if String.eqb risk_level "Medium Risk"
    then recommendations ++ [msg_risk_medium] ++ [msg_risk_medium_tip]
    else recommendations ++ [msg_risk_low] ++ [msg_risk_low_tip] in
  (* Anomaly-specific recommendations *)
  let recommendations :=
    if String.eqb anomaly_status "Anomaly"
    then recommendations ++ [msg_anomaly]
    else recommendations in
  Ok recommendations.

End MlModels.

Import HealthData MlModels.

(** ** Numeric rows

    On a row whose three vitals are numbers no comparison raises, and
    each block of the source functions is a function of one vital. *)

Definition has_vitals (row : gmap string pyval) (hr bo t : num) : Prop :=
  row !! "heart_rate" = Some (PyNum hr) ∧
  row !! "blood_oxygen" = Some (PyNum bo) ∧
  row !! "temperature" = Some (PyNum t).

Module Blocks.

(** What each block of [calculate_health_score] takes off the score. *)
Definition hr_deduction (v : num) : Z :=
  if num_le (NInt 60) v && num_le v (NInt 100) then 0
  else if (num_le (NInt 50) v && num_lt v (NInt 60))
          || (num_lt (NInt 100) v && num_le v (NInt 120)) then 10
  else 25.

Definition spo2_deduction (v : num) : Z :=
  if num_ge v (NInt 95) then 0
  else if num_le (NInt 90) v && num_lt v (NInt 95) then 15
  else 30.

Definition temp_deduction (v : num) : Z :=
  if num_le (NFloat 36.1) v && num_le v (NFloat 37.2) then 0
  else if (num_le (NFloat 35.5) v && num_lt v (NFloat 36.1))
          || (num_lt (NFloat 37.2) v && num_le v (NFloat 38.0)) then 10
  else 20.

(** What each block of [row_risk_score] adds to the risk score. *)
Definition hr_risk (v : num) : Z :=
  if num_lt v (NInt 50) || num_gt v (NInt 120) then 2
  else if num_lt v (NInt 60) || num_gt v (NInt 100) then 1
  else 0.

Definition spo2_risk (v : num) : Z :=
  if num_lt v (NInt 90) then 2
  else if num_lt v (NInt 95) then 1
  else 0.

Definition temp_risk (v : num) : Z :=
  if num_lt v (NFloat 35.5) || num_gt v (NFloat 38.0) then 2
  else if num_lt v (NFloat 36.1) || num_gt v (NFloat 37.5) then 1
  else 0.

End Blocks.

Import Blocks.

(** ** The reference definitions of the specification *)

Module Spec.

Inductive RiskLevel : Type := Low | Medium | High.

(** The label the classifier uses for a level (0: Low, 1: Medium, 2: High). *)
Definition level_code (l : RiskLevel) : Z :=
  match l with Low => 0 | Medium => 1 | High => 2 end.

(** Interval membership: [lo, hi), (lo, hi], [lo, hi], below and above. *)
Definition in_co (lo hi v : num) : bool := num_le lo v && num_lt v hi.
Definition in_oc (lo hi v : num) : bool := num_lt lo v && num_le v hi.
Definition in_cc (lo hi v : num) : bool := num_le lo v && num_le v hi.
Definition below (c v : num) : bool := num_lt v c.
Definition above (c v : num) : bool := num_lt c v.

(** Section 4.1: the penalty of each channel. *)
Definition hr_penalty (hr : num) : Z :=
  (if in_co (NInt 50) (NInt 60) hr || in_oc (NInt 100) (NInt 120) hr then 10 else 0)
  + (if below (NInt 50) hr || above (NInt 120) hr then 25 else 0).

Definition spo2_penalty (bo : num) : Z :=
  (if in_co (NInt 90) (NInt 95) bo then 15 else 0)
  + (if below (NInt 90) bo then 30 else 0).

Definition temp_penalty (t : num) : Z :=
  (if in_co (NFloat 35.5) (NFloat 36.1) t || in_oc (NFloat 37.2) (NFloat 38.0) t
   then 10 else 0)
  + (if below (NFloat 35.5) t || above (NFloat 38.0) t then 20 else 0).

Definition clamp (x : Z) : Z := Z.max 0 (Z.min 100 x).

Definition score (hr bo t : num) : Z :=
  clamp (100 - hr_penalty hr - spo2_penalty bo - temp_penalty t).

(** Section 4.2: the points of each channel and the final label. *)
Definition hr_points (hr : num) : Z :=
  (if below (NInt 50) hr || above (NInt 120) hr then 2 else 0)
  + (if in_co (NInt 50) (NInt 60) hr || in_oc (NInt 100) (NInt 120) hr then 1 else 0).

Definition spo2_points (bo : num) : Z :=
  (if below (NInt 90) bo then 2 else 0)
  + (if in_co (NInt 90) (NInt 95) bo then 1 else 0).

Definition temp_points (t : num) : Z :=
  (if below (NFloat 35.5) t || above (NFloat 38.0) t then 2 else 0)
  + (if in_co (NFloat 35.5) (NFloat 36.1) t || in_oc (NFloat 37.5) (NFloat 38.0) t
     then 1 else 0).

Definition label_of (risk_score : Z) : RiskLevel :=
  if 4 <=? risk_score then High
  else if 2 <=? risk_score then Medium
  else Low.

Definition classify (hr bo t : num) : RiskLevel :=
  label_of (hr_points hr + spo2_points bo + temp_points t).

(** The severity bands of section 4.2, per channel. *)
Inductive channel : Type := HeartRate | BloodOxygen | Temperature.

Definition field (k : channel) : string :=
  match k with
  | HeartRate => "heart_rate"
  | BloodOxygen => "blood_oxygen"
  | Temperature => "temperature"
  end.

Inductive band : Type := Normal | Moderate | Severe.

Definition normal (k : channel) (v : num) : bool :=
  match k with
  | HeartRate => in_cc (NInt 60) (NInt 100) v
  | BloodOxygen => num_le (NInt 95) v
  | Temperature => in_cc (NFloat 36.1) (NFloat 37.5) v
  end.

Definition moderate (k : channel) (v : num) : bool :=
  match k with
  | HeartRate => in_co (NInt 50) (NInt 60) v || in_oc (NInt 100) (NInt 120) v
  | BloodOxygen => in_co (NInt 90) (NInt 95) v
  | Temperature =>
      in_co (NFloat 35.5) (NFloat 36.1) v || in_oc (NFloat 37.5) (NFloat 38.0) v
  end.

Definition severe (k : channel) (v : num) : bool :=
  match k with
  | HeartRate => below (NInt 50) v || above (NInt 120) v
  | BloodOxygen => below (NInt 90) v
  | Temperature => below (NFloat 35.5) v || above (NFloat 38.0) v
  end.

Definition in_band (b : band) (k : channel) (v : num) : bool :=
  match b with
  | Normal => normal k v
  | Moderate => moderate k v
  | Severe => severe k v
  end.

(** One step of worsening: normal to moderate, or moderate to severe. *)
Inductive worsens : band → band → Prop :=
  | worsens_normal : worsens Normal Moderate
  | worsens_moderate : worsens Moderate Severe.

(** The value of a channel among the three vitals, the points it earns,
    and the points of a band. *)
Definition vital (k : channel) (hr bo t : num) : num :=
  match k with HeartRate => hr | BloodOxygen => bo | Temperature => t end.

Definition points (k : channel) (v : num) : Z :=
  match k with
  | HeartRate => hr_points v
  | BloodOxygen => spo2_points v
  | Temperature => temp_points v
  end.

Definition band_points (b : band) : Z :=
  match b with Normal => 0 | Moderate => 1 | Severe => 2 end.

(** A field that holds a number, and the value [generate_recommendations]
    takes for a vital that is absent. *)
Definition numeric (o : option pyval) : bool :=
  match o with Some (PyNum _) => true | _ => false end.

Definition default_vital (k : channel) : pyval :=
  match k with
  | HeartRate => int 0
  | BloodOxygen => int 100
  | Temperature => flt 36.5
  end.

(** Entries marked as warnings or as urgent, by their leading sign. *)
Definition is_warning (s : string) : bool := String.prefix "‚ö†Ô∏è" s.
Definition is_urgent (s : string) : bool := String.prefix "üö®" s.

End Spec.

(** ** Sample records *)

Module Samples.

(** Every channel in its severe band. *)
Definition row_severe : gmap string pyval :=
  <["heart_rate" := int 45]>
    (<["blood_oxygen" := int 88]> (<["temperature" := flt 39.0]> ∅)).

(** Every channel in its normal band. *)
Definition row_normal : gmap string pyval :=
  <["heart_rate" := int 75]>
    (<["blood_oxygen" := int 98]>
       (<["temperature" := flt 36.6]> (<["activity_level" := PyStr "moderate"]> ∅))).

(** Every channel in its moderate band. *)
Definition row_mild : gmap string pyval :=
  <["heart_rate" := int 55]>
    (<["blood_oxygen" := int 92]> (<["temperature" := flt 37.6]> ∅)).

(** Heart rate on the boundary of the moderate band. *)
Definition row_hr_50 : gmap string pyval := <["heart_rate" := int 50]> row_normal.
Definition row_hr_120 : gmap string pyval := <["heart_rate" := int 120]> row_normal.

(** Fields that are absent, None, text, or out of domain. *)
Definition row_empty : gmap string pyval := ∅.
Definition row_hr_none : gmap string pyval := <["heart_rate" := PyNone]> row_normal.
Definition row_temp_text : gmap string pyval :=
  <["temperature" := PyStr "warm"]> row_normal.
Definition row_spo2_negative : gmap string pyval :=
  <["blood_oxygen" := int (-5)]> row_normal.

(** The record with the most recommendations. *)
Definition row_busy : gmap string pyval :=
  <["activity_level" := PyStr "low"]> row_severe.

End Samples.

Import Samples.

From stdpp Require Import pretty.
Open Scope Z_scope.

(** ** The bands and the advice of the code, channel by channel *)

Module Advice.

Import Spec.

(** The bands [calculate_health_score] tells apart.  Heart rate and blood
    oxygen have the bounds of the risk score; the temperature is moderate
    from 37.2 on. *)
Definition in_score_band (b : band) (k : channel) (v : num) : bool :=
  match k, b with
  | Temperature, Normal => in_cc (NFloat 36.1) (NFloat 37.2) v
  | Temperature, Moderate =>
      in_co (NFloat 35.5) (NFloat 36.1) v || in_oc (NFloat 37.2) (NFloat 38.0) v
  | _, _ => in_band b k v
  end.

Definition band_deduction (k : channel) (b : band) : Z :=
  match k, b with
  | _, Normal => 0
  | HeartRate, Moderate => 10
  | HeartRate, Severe => 25
  | BloodOxygen, Moderate => 15
  | BloodOxygen, Severe => 30
  | Temperature, Moderate => 10
  | Temperature, Severe => 20
  end.

(** A value in the middle of the normal band of each channel. *)
Definition normal_num (k : channel) : num :=
  match k with
  | HeartRate => NInt 75
  | BloodOxygen => NInt 98
  | Temperature => NFloat 36.6
  end.

Definition normal_vital (k : channel) : pyval := PyNum (normal_num k).

(** The deduction and the risk points of a channel, by channel. *)
Definition channel_deduction (k : channel) (v : num) : Z :=
  match k with
  | HeartRate => hr_deduction v
  | BloodOxygen => spo2_deduction v
  | Temperature => temp_deduction v
  end.

Definition channel_risk (k : channel) (v : num) : Z :=
  match k with
  | HeartRate => hr_risk v
  | BloodOxygen => spo2_risk v
  | Temperature => temp_risk v
  end.

(** What each block of [generate_recommendations] appends. *)
Definition hr_advice (hr : num) : list string :=
  if num_lt hr (NInt 60) then [msg_hr_low; msg_hr_low_tip]
  else if num_gt hr (NInt 100) then [msg_hr_high; msg_hr_high_tip]
  else [].

Definition spo2_advice (spo2 : num) : list string :=
  if num_lt spo2 (NInt 95)
  then msg_spo2_low :: (if num_lt spo2 (NInt 90) then [msg_spo2_critical] else [])
  else [].

Definition temp_advice (temp : num) : list string :=
  if num_gt temp (NFloat 37.5)
  then msg_temp_high :: (if num_gt temp (NFloat 38.0) then [msg_temp_fever] else [])
  else if num_lt temp (NFloat 36.0) then [msg_temp_low]
  else [].

Definition activity_advice (activity : pyval) (risk_level : string) : list string :=
  if py_eq activity (PyStr "low") then [msg_activity_low]
  else if py_eq activity (PyStr "high")
          && existsb (String.eqb risk_level) ["Medium Risk"; "High Risk"]
  then [msg_activity_high]
  else [].

Definition risk_advice (risk_level : string) : list string :=
  if String.eqb risk_level "High Risk" then [msg_risk_high; msg_risk_high_tip]
  else if String.eqb risk_level "Medium Risk"
  then [msg_risk_medium; msg_risk_medium_tip]
  else [msg_risk_low; msg_risk_low_tip].

Definition anomaly_advice (anomaly_status : string) : list string :=
  if String.eqb anomaly_status "Anomaly" then [msg_anomaly] else [].

(** Every string the function can append, in the order of the source. *)
Definition catalogue : list string :=
  [msg_hr_low; msg_hr_low_tip; msg_hr_high; msg_hr_high_tip; msg_spo2_low;
   msg_spo2_critical; msg_temp_high; msg_temp_fever; msg_temp_low;
   msg_activity_low; msg_activity_high; msg_risk_high; msg_risk_high_tip;
   msg_risk_medium; msg_risk_medium_tip; msg_risk_low; msg_risk_low_tip;
   msg_anomaly].

End Advice.

Import Advice.

(** ** More of src/core/ml_models.py and its callers in app.py *)

Module Labels.

Import Spec.

(** HealthAnomalyDetector.get_anomaly_labels: the predictions of the
    isolation forest are -1 for an anomaly and 1 otherwise. *)
Definition get_anomaly_labels (predictions : list Z) : list string :=
  map (λ p, if p =? -1 then "Anomaly" else "Normal") predictions.

(** [sum(l)] for a list of integers. *)
Definition py_sum (l : list Z) : Z := fold_left Z.add l 0.

(** app.py: [sum([1 for l in anomaly_labels if l == 'Anomaly'])]. *)
Definition num_anomalies (anomaly_labels : list string) : Z :=
  py_sum (map (λ _, 1) (filter (λ l, l = "Anomaly") anomaly_labels)).

(** [l[i]] on a list: negative indices count from the end, anything
    outside raises IndexError ([None]). *)
Definition py_index {A} (l : list A) (i : Z) : option A :=
  let n := Z.of_nat (length l) in
  if (0 <=? i) && (i <? n) then l !! Z.to_nat i
  else if (- n <=? i) && (i <? 0) then l !! Z.to_nat (n + i)
  else None.

(** [[risk_classifier.risk_levels[r] for r in risk_predictions]]. *)
Definition risk_names (risk_predictions : list Z) : option (list string) :=
  mapM (py_index risk_levels) risk_predictions.

(** [df_encoded.apply(calculate_health_score, axis=1)]: the score of
    every row, in row order. *)
Definition health_scores (df : list (gmap string pyval)) : res (list Z) :=
  mapM calculate_health_score df.

(** A row with numbers in the three columns the rules read. *)
Definition row_numeric (row : gmap string pyval) : bool :=
  numeric (row !! "heart_rate") && numeric (row !! "blood_oxygen")
  && numeric (row !! "temperature").

(** app.py, analyze_realtime_data: the record built from the JSON body
    of the request.  [now] stands for the reading of the clock, which
    none of the functions here looks at. *)
Definition realtime_record (data : gmap string pyval) (now : pyval)
    : gmap string pyval :=
  list_to_map
    [("user_id", get data "user_id" (PyStr "unknown"));
     ("timestamp", now);
     ("heart_rate", get data "heart_rate" PyNone);
     ("blood_oxygen", get data "blood_oxygen" PyNone);
     ("temperature", get data "temperature" PyNone);
     ("respiration_rate", get data "respiration_rate" PyNone);
     ("activity_level", get data "activity_level" (PyStr "moderate"));
     ("steps", get data "steps" (int 0));
     ("sleep_quality", get data "sleep_quality" (PyStr "good"))].

End Labels.

Import Labels.

(** ** src/utils/config.py *)

Module Config.

(** The values of the class attributes. *)
Inductive cfgval : Type :=
  | CStr (s : string)
  | CBool (b : bool)
  | CNum (n : num)
  | CNone
  | CPair (lo hi : num).

(** A class: its own attributes and the class it extends; [Object] is
    the root, with none of the names looked up here. *)
Inductive pyclass : Type :=
  | Object
  | Class (own : gmap string cfgval) (base : pyclass).

(** [cls.name]: the class's own attribute, else the one it inherits;
    [None] is AttributeError. *)
Fixpoint getattr (cls : pyclass) (name : string) : option cfgval :=
  match cls with
  | Object => None
  | Class own base =>
      match own !! name with
      | Some v => Some v
      | None => getattr base name
      end
  end.

(** A value inside a range given as a pair, both ends included; the
    lower end of a range. *)
Definition within (range : cfgval) (v : num) : bool :=
  match range with
  | CPair lo hi => num_le lo v && num_le v hi
  | _ => false
  end.

Definition at_least_low (range : cfgval) (v : num) : bool :=
  match range with
  | CPair lo _ => num_le lo v
  | _ => false
  end.

Section Environ.

(** The process environment when the module is imported. *)
Variable environ : gmap string string.

(** [os.environ.get('SECRET_KEY')]. *)
Definition environ_secret : cfgval :=
  match environ !! "SECRET_KEY" with
  | Some s => CStr s
  | None => CNone
  end.

(** [x or dflt]: None and the empty string are false. *)
Definition py_or_else (x dflt : cfgval) : cfgval :=
  match x with
  | CNone | CStr "" => dflt
  | _ => x
  end.

Definition Config : pyclass :=
  Class
    (list_to_map
       [("SECRET_KEY",
          py_or_else environ_secret (CStr "dev-secret-key-change-in-production"));
        ("DEBUG", CBool false);
        ("TESTING", CBool false);
        ("HOST", CStr "0.0.0.0");
        ("PORT", CNum (NInt 5000));
        ("MODEL_DIR", CStr "models");
        ("ANOMALY_CONTAMINATION", CNum (NFloat 0.05));
        ("RANDOM_STATE", CNum (NInt 42));
        ("DEFAULT_NUM_RECORDS", CNum (NInt 100));
        ("DEFAULT_NUM_USERS", CNum (NInt 5));
        ("HEART_RATE_NORMAL", CPair (NInt 60) (NInt 100));
        ("HEART_RATE_WARNING", CPair (NInt 50) (NInt 120));
        ("BLOOD_OXYGEN_NORMAL", CPair (NInt 95) (NInt 100));
        ("BLOOD_OXYGEN_WARNING", CPair (NInt 90) (NInt 95));
        ("TEMPERATURE_NORMAL", CPair (NFloat 36.1) (NFloat 37.2));
        ("TEMPERATURE_WARNING", CPair (NFloat 35.5) (NFloat 38.0));
        ("RESPIRATION_RATE_NORMAL", CPair (NInt 12) (NInt 20));
        ("ENABLE_CORS", CBool true);
        ("API_RATE_LIMIT", CNone);
        ("EXPORT_FORMAT", CStr "csv");
        ("EXPORT_FILENAME_PATTERN", CStr "{user_id}_health_data_{date}.csv");
        ("CHART_DIR", CStr "static/charts");
        ("CHART_DPI", CNum (NInt 300));
        ("LOG_LEVEL", CStr "INFO");
        ("LOG_FORMAT",
          CStr "%(asctime)s - %(name)s - %(levelname)s - %(message)s")])
    Object.

Definition DevelopmentConfig : pyclass :=
  Class (list_to_map [("DEBUG", CBool true); ("TESTING", CBool false)])
    Config.

Definition ProductionConfig : pyclass :=
  Class
    (list_to_map
       [("DEBUG", CBool false);
        ("TESTING", CBool false);
        ("SECRET_KEY", environ_secret);
        ("ENABLE_CORS", CBool false);
        ("API_RATE_LIMIT", CStr "100 per hour")])
    Config.

Definition TestingConfig : pyclass :=
  Class
    (list_to_map
       [("DEBUG", CBool true);
        ("TESTING", CBool true);
        ("MODEL_DIR", CStr "test_models")])
    Config.

(** The configuration dictionary. *)
Definition config : gmap string pyclass :=
  list_to_map
    [("development", DevelopmentConfig);
     ("production", ProductionConfig);
     ("testing", TestingConfig);
     ("default", DevelopmentConfig)].

(** [config.get(env, config['default'])]; [None] is the KeyError of
    [config['default']]. *)
Definition get_config (env : string) : option pyclass :=
  match config !! "default" with
  | Some dflt => Some (default dflt (config !! env))
  | None => None
  end.

End Environ.

End Config.

(** ** src/core/health_data.py: HealthDataSimulator.generate_user_data *)

Module Simulator.

Section Clock.

(** Timestamps, [t + timedelta(minutes=5)] and [round(x, 1)] are left to
    Python. *)
Variable datetime : Type.
Variable plus_5_minutes : datetime → datetime.
Variable round1 : float → float.

(** What numpy's generator returns in one turn of the loop, call by
    call.  A field is read only on the branch that makes the call. *)
Record draws : Type := {
  d_random : float;          (* np.random.random() *)
  d_hr_low : Z;              (* np.random.randint(40, 50) *)
  d_hr_high : Z;             (* np.random.randint(120, 160) *)
  d_hr_first : bool;         (* np.random.choice of the two: the first? *)
  d_bo_anomaly : Z;          (* np.random.randint(85, 92) *)
  d_temp_low : float;        (* np.random.normal(35.0, 0.3) *)
  d_temp_high : float;       (* np.random.normal(38.5, 0.5) *)
  d_temp_first : bool;       (* np.random.choice of the two: the first? *)
  d_hr_normal : Z;           (* np.random.randint(60, 100) *)
  d_bo_normal : Z;           (* np.random.randint(95, 100) *)
  d_temp_normal : float;     (* np.random.normal(36.5, 0.3) *)
  d_respiration : Z;         (* np.random.randint(12, 20) *)
  d_activity : string;       (* np.random.choice(['low', 'moderate', 'high']) *)
  d_steps : Z;               (* np.random.randint(0, 150) *)
  d_sleep : string           (* np.random.choice(['poor', ..., 'excellent']) *)
}.

(** numpy's contract: [randint(lo, hi)] is in [lo, hi), [choice(l)] is an
    element of [l]. *)
Definition well_drawn (d : draws) : Prop :=
  40 ≤ d_hr_low d < 50 ∧ 120 ≤ d_hr_high d < 160 ∧
  85 ≤ d_bo_anomaly d < 92 ∧
  60 ≤ d_hr_normal d < 100 ∧ 95 ≤ d_bo_normal d < 100 ∧
  12 ≤ d_respiration d < 20 ∧ 0 ≤ d_steps d < 150 ∧
  d_activity d ∈ ["low"; "moderate"; "high"] ∧
  d_sleep d ∈ ["poor"; "fair"; "good"; "excellent"].

Record sample : Type := {
  user_id : pyval;
  timestamp : datetime;
  heart_rate : Z;
  blood_oxygen : Z;
  temperature : float;
  respiration_rate : Z;
  activity_level : string;
  steps : Z;
  sleep_quality : string
}.

(** [is_anomaly = np.random.random() < 0.05]. *)
Definition is_anomaly (d : draws) : bool := PrimFloat.ltb (d_random d) 0.05.

(** One turn of the loop: the record that is appended. *)
Definition record (uid : pyval) (current_time : datetime) (d : draws) : sample :=
  let '(hr, bo, temp) :=
    if is_anomaly d then
      (if d_hr_first d then d_hr_low d else d_hr_high d,
       d_bo_anomaly d,
       if d_temp_first d then d_temp_low d else d_temp_high d)
    else (d_hr_normal d, d_bo_normal d, d_temp_normal d) in
  {| user_id := uid;
     timestamp := current_time;
     heart_rate := hr;
     blood_oxygen := bo;
     temperature := round1 temp;
     respiration_rate := d_respiration d;
     activity_level := d_activity d;
     steps := d_steps d;
     sleep_quality := d_sleep d |}.

(** The loop [for i in range(num_records)], from turn [i] on. *)
Fixpoint loop (uid : pyval) (rng : nat → draws) (turns i : nat)
    (current_time : datetime) : list sample :=
  match turns with
  | O => []
  | S turns' =>
      record uid current_time (rng i)
      :: loop uid rng turns' (S i) (plus_5_minutes current_time)
  end.

(** [generate_user_data(user_id, num_records, start_time)]; [now] is
    [datetime.now()], taken when [start_time] is None.  [rng i] holds the
    draws of turn [i]. *)
Definition generate_user_data (rng : nat → draws) (now : datetime)
    (uid : pyval) (num_records : Z) (start_time : option datetime)
    : list sample :=
  let start_time := default now start_time in
  loop uid rng (Z.to_nat num_records) 0 start_time.

(** [f"{n:03d}"] for a natural number: its decimal digits, filled with
    zeros on the left up to the width. *)
Fixpoint zeros (n : nat) (s : string) : string :=
  match n with
  | O => s
  | S n' => "0" +:+ zeros n' s
  end.

Definition zfill (width : nat) (s : string) : string :=
  zeros (width - String.length s) s.

(** [f"user_{i+1:03d}"] *)
Definition user_name (i : nat) : string :=
  "user_" +:+ zfill 3 (pretty (S i)).

Inductive concat_result : Type :=
  | Frame (rows : list sample)
  | ValueError (msg : string).

(** [generate_multi_user_data(num_users, records_per_user)].  [now i] is
    the clock when user [i] is generated; the draws go on from where the
    user before stopped.  [pd.concat] refuses an empty list of frames. *)
Definition generate_multi_user_data (rng : nat → draws) (now : nat → datetime)
    (num_users records_per_user : Z) : concat_result :=
  let all_data :=
    map (λ i, generate_user_data
                (λ k, rng (i * Z.to_nat records_per_user + k)%nat) (now i)
                (PyStr (user_name i)) records_per_user None)
        (seq 0 (Z.to_nat num_users)) in
  match all_data with
  | [] => ValueError "No objects to concatenate"
  | _ => Frame (concat all_data)
  end.

End Clock.

(** One turn's draws that take the anomalous branch, with the highest
    readings that branch can give, and a record made of them. *)
Definition draws_mild_anomaly : draws := {|
  d_random := 0.01;
  d_hr_low := 44; d_hr_high := 120; d_hr_first := false;
  d_bo_anomaly := 91;
  d_temp_low := 35.1; d_temp_high := 37.2; d_temp_first := false;
  d_hr_normal := 72; d_bo_normal := 98; d_temp_normal := 36.6;
  d_respiration := 16;
  d_activity := "moderate";
  d_steps := 40;
  d_sleep := "good"
|}.

Definition row_mild_anomaly : gmap string pyval :=
  list_to_map [("heart_rate", int 120); ("blood_oxygen", int 91);
               ("temperature", flt 37.2); ("activity_level", PyStr "moderate")].

End Simulator.

(** ** src/core/ml_models.py, src/core/health_data.py: fitted state and
    persistence of the three model classes *)

Module Estimators.

(** scikit-learn's estimators, the frames and arrays of pandas and numpy
    and the exceptions of these libraries are left to the libraries. *)
Class Objects : Type := {
  estimator : Type;
  data : Type;
  foreign : Type
}.

Set Warnings "-register-all".

Section Values.

Context `{Objects}.

(** What an attribute, a dict entry or a file can hold. *)
Inductive obj : Type :=
  | Estimator (e : estimator)
  | Bool (b : bool)
  | NoneObj
  | Int (z : Z)
  | Float (f : float)
  | Strings (l : list string)
  | Data (d : data)
  | Dict (d : gmap string obj).

Inductive raised : Type :=
  | ValueError (msg : string)
  | KeyError (key : string)
  | TypeError
  | AttributeError (name : string)
  | FileNotFoundError (path : string)
  | OSError (path : string)
  | Foreign (e : foreign).

Inductive outcome (A : Type) : Type :=
  | Returns (a : A)
  | Raises (e : raised).

(** A file keeps the library that wrote it with the object written. *)
Inductive file : Type :=
  | ByJoblib (o : obj)
  | ByPickle (o : obj).

End Values.

Arguments Returns {_ _} a.
Arguments Raises {_ _} e.

(** The calls into the libraries and the operating system. *)
Class Libraries `{Objects} : Type := {
  (* IsolationForest(contamination=..., random_state=..., ...) *)
  IsolationForest : obj → obj → estimator;
  (* RandomForestClassifier(..., random_state=..., ...) *)
  RandomForestClassifier : obj → estimator;
  StandardScaler : estimator;
  (* e.fit(X) and e.fit(X, y): the estimator afterwards, and the outcome *)
  est_fit : estimator → data → option data → estimator * outcome unit;
  est_predict : estimator → data → outcome data;
  est_predict_proba : estimator → data → outcome data;
  est_score_samples : estimator → data → outcome data;
  (* bool(x) and x[key] of a library object *)
  est_bool : estimator → outcome bool;
  data_bool : data → outcome bool;
  est_item : estimator → string → outcome obj;
  data_item : data → string → outcome obj;
  (* X.columns.tolist() when isinstance(X, pd.DataFrame) *)
  frame_columns : data → option (list string);
  (* HealthAnomalyDetector._calculate_feature_importance: numpy and
     pandas calls only *)
  calculate_feature_importance : data → outcome data;
  (* HealthDataPreprocessor.transform after its check: encode_categorical,
     the selection of feature_columns, scaler.transform and the frame
     built from the result, for the scaler and the columns given *)
  scale : obj → obj → data → outcome (data * data);
  (* HealthDataPreprocessor.fit_transform up to scaler.fit_transform:
     the scaler afterwards, and df_encoded with X_scaled *)
  fit_scale : obj → obj → data → obj * outcome (data * data);
  (* pd.DataFrame(X_scaled, columns=..., index=df.index) *)
  scaled_frame : data → obj → data → outcome data;
  (* can this path be opened for writing? *)
  writable : string → bool;
  (* pickle.load of a file written by joblib.dump *)
  pickle_of_joblib : obj → outcome obj
}.

Section Classes.

Context `{Libraries}.

(** [not x] *)
Definition truth (o : obj) : outcome bool :=
  match o with
  | Bool b => Returns b
  | NoneObj => Returns false
  | Int z => Returns (negb (z =? 0))
  | Float f => Returns (negb (PrimFloat.eqb f 0))
  | Strings l => Returns (match l with [] => false | _ => true end)
  | Dict d => Returns (match map_to_list d with [] => false | _ => true end)
  | Estimator e => est_bool e
  | Data d => data_bool d
  end.

(** [x[key]] for a string key *)
Definition subscript (o : obj) (key : string) : outcome obj :=
  match o with
  | Dict d =>
      match d !! key with
      | Some v => Returns v
      | None => Raises (KeyError key)
      end
  | Estimator e => est_item e key
  | Data d => data_item d key
  | Bool _ | NoneObj | Int _ | Float _ | Strings _ => Raises TypeError
  end.

(** [x.fit(...)], [x.predict(X)], ... on whatever the attribute holds *)
Definition call_fit (o : obj) (X : data) (y : option data) : obj * outcome unit :=
  match o with
  | Estimator e => let '(e', r) := est_fit e X y in (Estimator e', r)
  | _ => (o, Raises (AttributeError "fit"))
  end.

Definition call_predict (o : obj) (X : data) : outcome data :=
  match o with
  | Estimator e => est_predict e X
  | _ => Raises (AttributeError "predict")
  end.


Definition call_score_samples (o : obj) (X : data) : outcome data :=
  match o with
  | Estimator e => est_score_samples e X
  | _ => Raises (AttributeError "score_samples")
  end.

(** The files, by path. *)
Definition disk : Type := gmap string file.

Definition joblib_dump (o : obj) (filepath : string) (fs : disk) : outcome disk :=
  if writable filepath then Returns (<[filepath := ByJoblib o]> fs)
  else Raises (OSError filepath).

Definition joblib_load (filepath : string) (fs : disk) : outcome obj :=
  match fs !! filepath with
  | None => Raises (FileNotFoundError filepath)
  | Some (ByJoblib o) | Some (ByPickle o) => Returns o
  end.

Definition pickle_dump (o : obj) (filepath : string) (fs : disk) : outcome disk :=
  if writable filepath then Returns (<[filepath := ByPickle o]> fs)
  else Raises (OSError filepath).

Definition pickle_load (filepath : string) (fs : disk) : outcome obj :=
  match fs !! filepath with
  | None => Raises (FileNotFoundError filepath)
  | Some (ByPickle o) => Returns o
  | Some (ByJoblib o) => pickle_of_joblib o
  end.

(** *** HealthAnomalyDetector *)

Record detector : Type := {
  model : obj;
  is_fitted : obj;
  feature_importance : obj;
  contamination : obj
}.

Definition detector_init (contamination random_state : obj) : detector :=
  {| model := Estimator (IsolationForest contamination random_state);
     is_fitted := Bool false;
     feature_importance := NoneObj;
     contamination := contamination |}.

(** A method gives the object afterwards and the outcome of the call. *)
Definition detector_fit (self : detector) (X : data) : detector * outcome unit :=
  let '(m, r) := call_fit (model self) X None in
  let self := {| model := m; is_fitted := is_fitted self;
                 feature_importance := feature_importance self;
                 contamination := contamination self |} in
  match r with
  | Raises e => (self, Raises e)
  | Returns _ =>
      let self := {| model := model self; is_fitted := Bool true;
                     feature_importance := feature_importance self;
                     contamination := contamination self |} in
      match calculate_feature_importance X with
      | Raises e => (self, Raises e)
      | Returns fi =>
          ({| model := model self; is_fitted := is_fitted self;
              feature_importance := Data fi;
              contamination := contamination self |}, Returns tt)
      end
  end.

Definition detector_predict (self : detector) (X : data) : outcome data :=
  match truth (is_fitted self) with
  | Raises e => Raises e
  | Returns false => Raises (ValueError "Model not fitted. Call fit() first.")
  | Returns true => call_predict (model self) X
  end.

Definition predict_with_scores (self : detector) (X : data) : outcome (data * data) :=
  match detector_predict self X with
  | Raises e => Raises e
  | Returns predictions =>
      match call_score_samples (model self) X with
      | Raises e => Raises e
      | Returns scores => Returns (predictions, scores)
      end
  end.

Definition detector_save_model (self : detector) (filepath : string) (fs : disk)
    : outcome disk :=
  let model_data := Dict (list_to_map [
    ("model", model self);
    ("is_fitted", is_fitted self);
    ("feature_importance", feature_importance self);
    ("contamination", contamination self)]) in
  joblib_dump model_data filepath fs.

(** The four assignments of [load_model] happen one after the other:
    a missing key leaves the earlier ones done. *)
Definition detector_load_model (self : detector) (filepath : string) (fs : disk)
    : detector * outcome unit :=
  match joblib_load filepath fs with
  | Raises e => (self, Raises e)
  | Returns model_data =>
  match subscript model_data "model" with
  | Raises e => (self, Raises e)
  | Returns v =>
  let self := {| model := v; is_fitted := is_fitted self;
                 feature_importance := feature_importance self;
                 contamination := contamination self |} in
  match subscript model_data "is_fitted" with
  | Raises e => (self, Raises e)
  | Returns v =>
  let self := {| model := model self; is_fitted := v;
                 feature_importance := feature_importance self;
                 contamination := contamination self |} in
  match subscript model_data "feature_importance" with
  | Raises e => (self, Raises e)
  | Returns v =>
  let self := {| model := model self; is_fitted := is_fitted self;
                 feature_importance := v;
                 contamination := contamination self |} in
  match subscript model_data "contamination" with
  | Raises e => (self, Raises e)
  | Returns v =>
  ({| model := model self; is_fitted := is_fitted self;
      feature_importance := feature_importance self;
      contamination := v |}, Returns tt)
  end end end end end.

(** *** HealthRiskClassifier *)

Record classifier : Type := {
  c_model : obj;
  c_is_fitted : obj;
  feature_names : obj;
  risk_levels : obj
}.

Definition classifier_init (random_state : obj) : classifier :=
  {| c_model := Estimator (RandomForestClassifier random_state);
     c_is_fitted := Bool false;
     feature_names := NoneObj;
     risk_levels := Strings MlModels.risk_levels |}.

Definition classifier_fit (self : classifier) (X y : data) : classifier * outcome unit :=
  let self :=
    match frame_columns X with
    | Some names => {| c_model := c_model self; c_is_fitted := c_is_fitted self;
                       feature_names := Strings names;
                       risk_levels := risk_levels self |}
    | None => self
    end in
  let '(m, r) := call_fit (c_model self) X (Some y) in
  let self := {| c_model := m; c_is_fitted := c_is_fitted self;
                 feature_names := feature_names self;
                 risk_levels := risk_levels self |} in
  match r with
  | Raises e => (self, Raises e)
  | Returns _ =>
      ({| c_model := c_model self; c_is_fitted := Bool true;
          feature_names := feature_names self;
          risk_levels := risk_levels self |}, Returns tt)
  end.

Definition classifier_predict (self : classifier) (X : data) : outcome data :=
  match truth (c_is_fitted self) with
  | Raises e => Raises e
  | Returns false => Raises (ValueError "Model not fitted. Call fit() first.")
  | Returns true => call_predict (c_model self) X
  end.


Definition classifier_save_model (self : classifier) (filepath : string) (fs : disk)
    : outcome disk :=
  let model_data := Dict (list_to_map [
    ("model", c_model self);
    ("is_fitted", c_is_fitted self);
    ("feature_names", feature_names self);
    ("risk_levels", risk_levels self)]) in
  joblib_dump model_data filepath fs.

Definition classifier_load_model (self : classifier) (filepath : string) (fs : disk)
    : classifier * outcome unit :=
  match joblib_load filepath fs with
  | Raises e => (self, Raises e)
  | Returns model_data =>
  match subscript model_data "model" with
  | Raises e => (self, Raises e)
  | Returns v =>
  let self := {| c_model := v; c_is_fitted := c_is_fitted self;
                 feature_names := feature_names self;
                 risk_levels := risk_levels self |} in
  match subscript model_data "is_fitted" with
  | Raises e => (self, Raises e)
  | Returns v =>
  let self := {| c_model := c_model self; c_is_fitted := v;
                 feature_names := feature_names self;
                 risk_levels := risk_levels self |} in
  match subscript model_data "feature_names" with
  | Raises e => (self, Raises e)
  | Returns v =>
  let self := {| c_model := c_model self; c_is_fitted := c_is_fitted self;
                 feature_names := v;
                 risk_levels := risk_levels self |} in
  match subscript model_data "risk_levels" with
  | Raises e => (self, Raises e)
  | Returns v =>
  ({| c_model := c_model self; c_is_fitted := c_is_fitted self;
      feature_names := feature_names self;
      risk_levels := v |}, Returns tt)
  end end end end end.

(** *** HealthDataPreprocessor *)

Record preprocessor : Type := {
  scaler : obj;
  feature_columns : obj;
  p_is_fitted : obj
}.

Definition preprocessor_init : preprocessor :=
  {| scaler := Estimator StandardScaler;
     feature_columns := Strings ["heart_rate"; "blood_oxygen"; "temperature";
                                 "respiration_rate"; "activity_level_encoded";
                                 "steps"];
     p_is_fitted := Bool false |}.

(** [is_fitted] is set between [scaler.fit_transform] and the
    construction of the scaled frame. *)
Definition fit_transform (self : preprocessor) (df : data)
    : preprocessor * outcome (data * data) :=
  let '(s, r) := fit_scale (scaler self) (feature_columns self) df in
  let self := {| scaler := s; feature_columns := feature_columns self;
                 p_is_fitted := p_is_fitted self |} in
  match r with
  | Raises e => (self, Raises e)
  | Returns (df_encoded, X_scaled) =>
      let self := {| scaler := scaler self; feature_columns := feature_columns self;
                     p_is_fitted := Bool true |} in
      match scaled_frame X_scaled (feature_columns self) df with
      | Raises e => (self, Raises e)
      | Returns df_scaled => (self, Returns (df_encoded, df_scaled))
      end
  end.

(** After the check, everything is pandas and scikit-learn. *)
Definition transform (self : preprocessor) (df : data) : outcome (data * data) :=
  match truth (p_is_fitted self) with
  | Raises e => Raises e
  | Returns false =>
      Raises (ValueError "Preprocessor not fitted. Call fit_transform first.")
  | Returns true => scale (scaler self) (feature_columns self) df
  end.

Definition save_scaler (self : preprocessor) (filepath : string) (fs : disk)
    : outcome disk :=
  pickle_dump (scaler self) filepath fs.

Definition load_scaler (self : preprocessor) (filepath : string) (fs : disk)
    : preprocessor * outcome unit :=
  match pickle_load filepath fs with
  | Raises e => (self, Raises e)
  | Returns o =>
      ({| scaler := o; feature_columns := feature_columns self;
          p_is_fitted := Bool true |}, Returns tt)
  end.

End Classes.

(** A small library to run the classes on: an estimator is the number of
    times it has been fit, data are lists of integers, fitting and
    predicting always return, every path but the empty one is writable. *)
Definition counting_objects : Objects :=
  {| estimator := nat; data := list Z; foreign := string |}.

Definition counting_libraries : @Libraries counting_objects :=
  @Build_Libraries counting_objects
    (* IsolationForest *) (λ _ _, O)
    (* RandomForestClassifier *) (λ _, O)
    (* StandardScaler *) O
    (* est_fit *) (λ e _ _, (S e, Returns tt))
    (* est_predict *) (λ _ X, Returns X)
    (* est_predict_proba *) (λ _ X, Returns X)
    (* est_score_samples *) (λ _ X, Returns X)
    (* est_bool *) (λ _, Returns true)
    (* data_bool *) (λ d, Returns (match d with [] => false | _ => true end))
    (* est_item *) (λ _ _, Raises TypeError)
    (* data_item *) (λ _ _, Raises TypeError)
    (* frame_columns *) (λ _, None)
    (* calculate_feature_importance *) (λ X, Returns X)
    (* scale *) (λ _ _ df, Returns (df, df))
    (* fit_scale *) (λ s _ df, (s, Returns (df, df)))
    (* scaled_frame *) (λ X _ _, Returns X)
    (* writable *) (λ path, negb (String.eqb path ""))
    (* pickle_of_joblib *) (λ o, Returns o).

(** The objects of app.py at start, and after training on three rows. *)
Definition new_detector : @detector counting_objects :=
  @detector_init _ counting_libraries (Float 0.05) (Int 42).
Definition new_classifier : @classifier counting_objects :=
  @classifier_init _ counting_libraries (Int 42).
Definition trained_detector : @detector counting_objects :=
  fst (@detector_fit _ counting_libraries new_detector [1; 2; 3]).
Definition trained_classifier : @classifier counting_objects :=
  fst (@classifier_fit _ counting_libraries new_classifier [1; 2; 3] [0; 1; 2]).

End Estimators.

(** ** gemini_advisor.py: GeminiHealthAdvisor *)

Module Gemini.

Set Warnings "-register-all".

(** What [json.loads] returns. *)
Inductive json : Type :=
  | JNull
  | JBool (b : bool)
  | JNumber (n : num)
  | JString (s : string)
  | JArray (l : list json)
  | JObject (d : gmap string json).

(** [ApiError] stands for whatever the client library, the network or
    the formatting of the prompt raises. *)
Inductive raised : Type :=
  | ValueError (msg : string)
  | AttributeError (name : string)
  | TypeError
  | JSONDecodeError
  | ApiError (what : string).

Inductive outcome (A : Type) : Type :=
  | Returns (a : A)
  | Raises (e : raised).

Arguments Returns {_} a.
Arguments Raises {_} e.

(** The client library, [str.strip], [json.loads] and the text of the
    prompt are left to Python and to the service. *)
Class Services : Type := {
  client : Type;
  (* genai.configure(api_key=...) and genai.GenerativeModel('gemini-2.5-flash') *)
  connect : string → outcome client;
  (* model.generate_content(prompt).text *)
  generate_content : client → string → outcome string;
  strip : string → string;
  json_loads : string → outcome json;
  (* _create_health_analysis_prompt, with _describe_trend and the clock *)
  create_health_analysis_prompt :
    gmap string pyval → string → string → option (gmap string (list num))
    → outcome string
}.

Section Advisor.

Context `{Services}.

Record advisor : Type := {
  api_key : string;
  model : client;
  system_context : string
}.

Definition system_context_text : string :=
  "You are an expert AI health advisor with deep knowledge in:
- General health and wellness
- Vital signs interpretation
- Preventive healthcare
- Lifestyle recommendations
- When to seek medical attention

Your role is to:
1. Analyze health metrics and patterns
2. Provide clear, actionable recommendations
3. Flag concerning trends that need medical attention
4. Offer lifestyle and wellness advice
5. Be empathetic and encouraging

Important guidelines:
- Always prioritize safety and recommend professional medical care when needed
- Use simple, clear language that anyone can understand
- Be specific with recommendations
- Use emojis sparingly but effectively
- Keep recommendations concise but comprehensive
- Never diagnose specific diseases or conditions
- Always remind users you're an AI assistant, not a replacement for doctors
".

(** [__init__(api_key)], with the process environment: [api_key or
    os.getenv('GEMINI_API_KEY')], refused when empty or None. *)
Definition advisor_init (environ : gmap string string) (key : option string)
    : outcome advisor :=
  let key :=
    match key with
    | Some "" | None => environ !! "GEMINI_API_KEY"
    | Some k => Some k
    end in
  match key with
  | None | Some "" =>
      Raises (ValueError "Gemini API key not found. Please set GEMINI_API_KEY environment variable or pass it directly to the constructor.")
  | Some k =>
      match connect k with
      | Raises e => Raises e
      | Returns m => Returns {| api_key := k; model := m;
                                system_context := system_context_text |}
      end
  end.

(** [s.startswith(p)], [s.endswith(p)], [s[n:]] and [s[:-n]]. *)
Definition startswith (s p : string) : bool := String.prefix p s.

Definition endswith (s p : string) : bool :=
  (String.length p <=? String.length s)%nat &&
  String.eqb (String.substring (String.length s - String.length p)
                (String.length p) s) p.

Definition slice_from (n : nat) (s : string) : string :=
  String.substring n (String.length s - n) s.

Definition slice_to_minus (n : nat) (s : string) : string :=
  String.substring 0 (String.length s - n) s.

(** [needle in haystack] for two strings. *)
Fixpoint contains (needle haystack : string) : bool :=
  String.prefix needle haystack ||
  match haystack with
  | EmptyString => false
  | String _ rest => contains needle rest
  end.

(** [key in insights]: a key of a dict, an element of a list, a
    substring of a string; the other values are not iterable. *)
Definition py_in (key : string) (insights : json) : outcome bool :=
  match insights with
  | JObject d => Returns (bool_decide (is_Some (d !! key)))
  | JArray l =>
      Returns (existsb (λ x, match x with
                             | JString s => String.eqb s key
                             | _ => false
                             end) l)
  | JString s => Returns (contains key s)
  | JNull | JBool _ | JNumber _ => Raises TypeError
  end.

(** [all(key in insights for key in keys)] stops at the first False. *)
Fixpoint all_in (keys : list string) (insights : json) : outcome bool :=
  match keys with
  | [] => Returns true
  | key :: keys =>
      match py_in key insights with
      | Raises e => Raises e
      | Returns false => Returns false
      | Returns true => all_in keys insights
      end
  end.

Definition required_keys : list string :=
  ["summary"; "key_findings"; "recommendations"].

(** [_parse_gemini_response]: a JSONDecodeError is logged and raised
    again, every other exception passes through. *)
Definition parse_gemini_response (response_text : string) : outcome json :=
  let cleaned := strip response_text in
  let cleaned := if startswith cleaned "```json" then slice_from 7 cleaned
                 else cleaned in
  let cleaned := if startswith cleaned "```" then slice_from 3 cleaned
                 else cleaned in
  let cleaned := if endswith cleaned "```" then slice_to_minus 3 cleaned
                 else cleaned in
  let cleaned := strip cleaned in
  match json_loads cleaned with
  | Raises e => Raises e
  | Returns insights =>
      match all_in required_keys insights with
      | Raises e => Raises e
      | Returns false => Raises (ValueError "Missing required keys in Gemini response")
      | Returns true => Returns insights
      end
  end.

(** [generate_comprehensive_insights]: the three steps in a [try]; the
    handler logs the error and calls [self._fallback_recommendations].
    The definition of that method is commented out in the class, so the
    attribute lookup raises. *)
Definition generate_comprehensive_insights (self : advisor)
    (health_data : gmap string pyval) (anomaly_status risk_level : string)
    (historical_trends : option (gmap string (list num))) : outcome json :=
  let attempt :=
    match create_health_analysis_prompt health_data anomaly_status risk_level
            historical_trends with
    | Raises e => Raises e
    | Returns prompt =>
        match generate_content (model self) prompt with
        | Raises e => Raises e
        | Returns text => parse_gemini_response text
        end
    end in
  match attempt with
  | Returns insights => Returns insights
  | Raises _ => Raises (AttributeError "_fallback_recommendations")
  end.

End Advisor.

(** A service that answers every prompt with the same text, and reads
    it as the JSON value given. *)
Definition fixed_service (text : string) (value : outcome json) : Services :=
  {| client := unit;
     connect := λ _, Returns tt;
     generate_content := λ _ _, Returns text;
     strip := λ s, s;
     json_loads := λ _, value;
     create_health_analysis_prompt := λ _ _ _ _, Returns "prompt" |}.

(** An answer that is a JSON list of the three key names. *)
Definition names_only : json :=
  JArray [JString "summary"; JString "key_findings"; JString "recommendations"].

Definition names_service : Services :=
  fixed_service "[...]" (Returns names_only).

Definition names_advisor : @advisor names_service :=
  @Build_advisor names_service "key" tt system_context_text.

End Gemini.

(** ** The order of Python numbers *)

Section NumOrder.

Lemma float_cmp_flatten (o : option comparison) :
  float_cmp (flatten_cmp_opt o) = o.
Proof. by destruct o as [[]|]. Qed.

Lemma num_compare_floats (f g : float) :
  num_compare (NFloat f) (NFloat g) = SFcompare (Prim2SF f) (Prim2SF g).
Proof. simpl. by rewrite FloatAxioms.compare_spec, float_cmp_flatten. Qed.

Lemma Prim2SF_is_nan (f : float) :
  Prim2SF f = S754_nan ↔ is_nan f = true.
Proof.
  unfold Prim2SF. destruct (is_nan f); [done|].
  split; [|done].
  destruct (is_zero f); [done|]. destruct (is_infinity f); [done|].
  destruct (Z.frexp f) as [r e]. destruct (shr_fexp _ _ _ _ _) as [shr e'].
  by destruct (shr_m shr).
Qed.

Lemma SFcompare_antisym (x y : spec_float) :
  SFcompare y x = option_map CompOpp (SFcompare x y).
Proof.
  destruct x as [[]|[]| |[] mx ex], y as [[]|[]| |[] my ey]; simpl; try done.
  all: rewrite (Z.compare_antisym ex ey); destruct (ex ?= ey); simpl; try done.
  all: change (Pos.compare_cont Eq my mx) with (my ?= mx)%positive.
  all: change (Pos.compare_cont Eq mx my) with (mx ?= my)%positive.
  all: rewrite (Pos.compare_antisym mx my); by destruct (mx ?= my)%positive.
Qed.

Lemma num_compare_antisym (a b : num) :
  num_compare b a = option_map CompOpp (num_compare a b).
Proof.
  destruct a as [x|f], b as [y|g].
  - simpl. by rewrite (Z.compare_antisym x y).
  - done.
  - simpl. by destruct (Z_SF_compare y (Prim2SF f)) as [[]|].
  - rewrite !num_compare_floats. apply SFcompare_antisym.
Qed.

(** Comparisons are unordered exactly when a NaN is involved. *)
Lemma num_compare_nan_l (a b : num) :
  num_nan a = true → num_compare a b = None.
Proof.
  destruct a as [x|f]; [done|]. simpl. intros Hf.
  apply Prim2SF_is_nan in Hf. destruct b as [y|g].
  - simpl. by rewrite Hf.
  - change (num_compare (NFloat f) (NFloat g) = None).
    by rewrite num_compare_floats, Hf.
Qed.

Lemma num_compare_nan_r (a b : num) :
  num_nan b = true → num_compare a b = None.
Proof.
  intros Hb. by rewrite (num_compare_antisym b a), num_compare_nan_l.
Qed.

Lemma num_compare_ordered (a b : num) :
  num_nan a = false → num_nan b = false → is_Some (num_compare a b).
Proof.
  assert (Hsf : ∀ f, is_nan f = false → Prim2SF f ≠ S754_nan).
  { intros f Hf Hn. apply Prim2SF_is_nan in Hn. congruence. }
  destruct a as [x|f], b as [y|g]; simpl; intros Ha Hb.
  - eauto.
  - apply Hsf in Hb. destruct (Prim2SF g); simpl; eauto. done.
  - apply Hsf in Ha. destruct (Prim2SF f); simpl; eauto. done.
  - change (is_Some (num_compare (NFloat f) (NFloat g))).
    rewrite num_compare_floats. apply Hsf in Ha, Hb.
    destruct (Prim2SF f) as [| | |[]], (Prim2SF g) as [| | |[]]; simpl; eauto; done.
Qed.

(** [v <= c1] and [c1 < c2] give [v < c2], for integer bounds. *)
Lemma int_bounds_mono (c1 c2 : Z) (v : num) :
  c1 < c2 → num_le v (NInt c1) = true → num_lt v (NInt c2) = true.
Proof.
  intros Hc. unfold num_le, num_lt. destruct v as [x|f]; simpl.
  - destruct (Z.compare_spec x c1), (Z.compare_spec x c2); try done; lia.
  - destruct (Prim2SF f) as [s|[]| |s m e]; simpl; try done.
    + destruct (Z.compare_spec c1 0), (Z.compare_spec c2 0); simpl; try done; lia.
    + set (n := if s then Z.neg m else Z.pos m).
      destruct (Z.leb_spec 0 e).
      * destruct (Z.compare_spec c1 (n * 2 ^ e)),
          (Z.compare_spec c2 (n * 2 ^ e)); simpl; try done; lia.
      * assert (0 < 2 ^ (- e)) by (apply Z.pow_pos_nonneg; lia).
        destruct (Z.compare_spec (c1 * 2 ^ (- e)) n),
          (Z.compare_spec (c2 * 2 ^ (- e)) n); simpl; try done; nia.
Qed.

(** The same for two positive float bounds with one exponent. *)
Lemma float_bounds_mono (c1 c2 : float) (m1 m2 : positive) (e : Z) (v : num) :
  Prim2SF c1 = S754_finite false m1 e →
  Prim2SF c2 = S754_finite false m2 e →
  (m1 < m2)%positive →
  num_le v (NFloat c1) = true → num_lt v (NFloat c2) = true.
Proof.
  intros H1 H2 Hm. unfold num_le, num_lt. destruct v as [x|f].
  - simpl. rewrite H1, H2. simpl.
    destruct (Z.leb_spec 0 e).
    + assert (0 < 2 ^ e) by (apply Z.pow_pos_nonneg; lia).
      destruct (Z.compare_spec x (Z.pos m1 * 2 ^ e)),
        (Z.compare_spec x (Z.pos m2 * 2 ^ e)); simpl; try done; nia.
    + destruct (Z.compare_spec (x * 2 ^ (- e)) (Z.pos m1)),
        (Z.compare_spec (x * 2 ^ (- e)) (Z.pos m2)); simpl; try done; lia.
  - rewrite !num_compare_floats, H1, H2.
    destruct (Prim2SF f) as [s|[]| |[] m e']; simpl; try done.
    destruct (Z.compare_spec e' e); simpl; try done.
    change (Pos.compare_cont Eq m m1) with (m ?= m1)%positive.
    change (Pos.compare_cont Eq m m2) with (m ?= m2)%positive.
    destruct (Pos.compare_spec m m1), (Pos.compare_spec m m2); simpl; try done; lia.
Qed.

End NumOrder.

Import Spec.

(** The bounds of the source, pairwise in increasing order. *)
Section Bounds.

Variable v : num.

Lemma hr_50_60 : num_le v (NInt 50) = true → num_lt v (NInt 60) = true.
Proof. by apply int_bounds_mono. Qed.

Lemma hr_60_100 : num_le v (NInt 60) = true → num_lt v (NInt 100) = true.
Proof. by apply int_bounds_mono. Qed.

Lemma hr_100_120 : num_le v (NInt 100) = true → num_lt v (NInt 120) = true.
Proof. by apply int_bounds_mono. Qed.

Lemma spo2_90_95 : num_le v (NInt 90) = true → num_lt v (NInt 95) = true.
Proof. by apply int_bounds_mono. Qed.

Lemma temp_355_361 : num_le v (NFloat 35.5) = true → num_lt v (NFloat 36.1) = true.
Proof. by eapply float_bounds_mono. Qed.

Lemma temp_361_372 : num_le v (NFloat 36.1) = true → num_lt v (NFloat 37.2) = true.
Proof. by eapply float_bounds_mono. Qed.

Lemma temp_372_380 : num_le v (NFloat 37.2) = true → num_lt v (NFloat 38.0) = true.
Proof. by eapply float_bounds_mono. Qed.

Lemma temp_361_375 : num_le v (NFloat 36.1) = true → num_lt v (NFloat 37.5) = true.
Proof. by eapply float_bounds_mono. Qed.

Lemma temp_375_380 : num_le v (NFloat 37.5) = true → num_lt v (NFloat 38.0) = true.
Proof. by eapply float_bounds_mono. Qed.

End Bounds.

Ltac unfold_order :=
  unfold normal, moderate, severe, in_co, in_oc, in_cc, below, above,
    num_lt, num_le, num_gt, num_ge, num_eq in *.

(** Case analysis on how [v] compares with every bound in sight. *)
Ltac order_cases v :=
  unfold_order;
  rewrite ?(num_compare_antisym v (NInt _)), ?(num_compare_antisym v (NFloat _)) in *;
  repeat match goal with
         | H : context [num_compare v ?c] |- _ =>
             destruct (num_compare v c) as [[]|]
         | |- context [num_compare v ?c] =>
             destruct (num_compare v c) as [[]|]
         end;
  cbn in *;
  try done;
  repeat match goal with
         | H : ?a = ?a → _ |- _ => specialize (H eq_refl)
         end;
  try done.

Ltac ordered v Hn c :=
  pose proof (num_compare_ordered v c Hn eq_refl) as [? ?].

Ltac hr_bounds v :=
  pose proof (hr_50_60 v); pose proof (hr_60_100 v); pose proof (hr_100_120 v).

Ltac hr_ordered v Hn :=
  ordered v Hn (NInt 50); ordered v Hn (NInt 60);
  ordered v Hn (NInt 100); ordered v Hn (NInt 120).

Ltac spo2_ordered v Hn :=
  ordered v Hn (NInt 90); ordered v Hn (NInt 95).

Ltac temp_score_bounds v :=
  pose proof (temp_355_361 v); pose proof (temp_361_372 v);
  pose proof (temp_372_380 v).

Ltac temp_risk_bounds v :=
  pose proof (temp_355_361 v); pose proof (temp_361_375 v);
  pose proof (temp_375_380 v).

Ltac temp_score_ordered v Hn :=
  ordered v Hn (NFloat 35.5); ordered v Hn (NFloat 36.1);
  ordered v Hn (NFloat 37.2); ordered v Hn (NFloat 38.0).

Ltac temp_risk_ordered v Hn :=
  ordered v Hn (NFloat 35.5); ordered v Hn (NFloat 36.1);
  ordered v Hn (NFloat 37.5); ordered v Hn (NFloat 38.0).

(** A NaN is below, at and above nothing. *)
Ltac nan_case v Hn :=
  unfold_order;
  rewrite ?(num_compare_antisym v (NInt _)), ?(num_compare_antisym v (NFloat _));
  rewrite ?(num_compare_nan_l v _ Hn); done.

(** ** The blocks of the score agree with the bands of section 4.1 *)

Lemma hr_deduction_spec (hr : num) :
  num_nan hr = false → hr_deduction hr = hr_penalty hr.
Proof.
  intros Hn. hr_bounds hr. hr_ordered hr Hn.
  unfold hr_deduction, hr_penalty. order_cases hr.
Qed.

Lemma spo2_deduction_spec (bo : num) :
  num_nan bo = false → spo2_deduction bo = spo2_penalty bo.
Proof.
  intros Hn. pose proof (spo2_90_95 bo). spo2_ordered bo Hn.
  unfold spo2_deduction, spo2_penalty. order_cases bo.
Qed.

Lemma temp_deduction_spec (t : num) :
  num_nan t = false → temp_deduction t = temp_penalty t.
Proof.
  intros Hn. temp_score_bounds t. temp_score_ordered t Hn.
  unfold temp_deduction, temp_penalty. order_cases t.
Qed.

(** A NaN falls through to the last branch of each block. *)
Lemma deduction_nan (v : num) :
  num_nan v = true →
  hr_deduction v = 25 ∧ spo2_deduction v = 30 ∧ temp_deduction v = 20.
Proof.
  intros Hn. unfold hr_deduction, spo2_deduction, temp_deduction.
  repeat split; nan_case v Hn.
Qed.

Lemma hr_deduction_range (v : num) : 0 ≤ hr_deduction v ≤ 25.
Proof. unfold hr_deduction. repeat case_match; lia. Qed.

Lemma spo2_deduction_range (v : num) : 0 ≤ spo2_deduction v ≤ 30.
Proof. unfold spo2_deduction. repeat case_match; lia. Qed.

Lemma temp_deduction_range (v : num) : 0 ≤ temp_deduction v ≤ 20.
Proof. unfold temp_deduction. repeat case_match; lia. Qed.

(** ** The blocks of the risk score agree with the bands of section 4.2 *)

Lemma hr_risk_spec (hr : num) : hr_risk hr = hr_points hr.
Proof.
  unfold hr_risk, hr_points. destruct (num_nan hr) eqn:Hn; [nan_case hr Hn|].
  hr_bounds hr. hr_ordered hr Hn. order_cases hr.
Qed.

Lemma spo2_risk_spec (bo : num) : spo2_risk bo = spo2_points bo.
Proof.
  unfold spo2_risk, spo2_points. destruct (num_nan bo) eqn:Hn; [nan_case bo Hn|].
  pose proof (spo2_90_95 bo). spo2_ordered bo Hn. order_cases bo.
Qed.

Lemma temp_risk_spec (t : num) : temp_risk t = temp_points t.
Proof.
  unfold temp_risk, temp_points. destruct (num_nan t) eqn:Hn; [nan_case t Hn|].
  temp_risk_bounds t. temp_risk_ordered t Hn. order_cases t.
Qed.

Lemma risk_label_spec (s : Z) : risk_label s = level_code (label_of s).
Proof. unfold risk_label, label_of. by repeat case_match. Qed.

(** ** The source functions on numeric rows *)

Ltac numeric_row H1 H2 H3 :=
  unfold item; rewrite H1, H2, H3;
  cbn [bind py_and py_or py_le py_lt py_ge py_gt int flt].

(** The next block of the function returns [e]. *)
Ltac block e :=
  match goal with
  | |- bind ?b _ = _ =>
      let H := fresh in
      assert (H : b = Ok e);
      [ unfold hr_deduction, spo2_deduction, temp_deduction,
          hr_risk, spo2_risk, temp_risk;
        repeat match goal with
               | |- context [if ?c then _ else _] =>
                   destruct c; cbn [bind py_and py_or orb andb]
               end; first [reflexivity | f_equal; lia]
      | rewrite H; clear H; cbn [bind];
        let s := fresh "s" in let Hs := fresh "Hs" in remember e as s eqn:Hs ]
  end.

Lemma calculate_health_score_numeric row hr bo t :
  has_vitals row hr bo t →
  calculate_health_score row =
    Ok (clamp (100 - hr_deduction hr - spo2_deduction bo - temp_deduction t)).
Proof.
  intros (Hh & Hb & Ht).
  unfold calculate_health_score. numeric_row Hh Hb Ht.
  block (100 - hr_deduction hr).
  block (s - spo2_deduction bo).
  block (s0 - temp_deduction t).
  by subst.
Qed.

Lemma row_risk_score_numeric row hr bo t :
  has_vitals row hr bo t →
  row_risk_score row = Ok (hr_risk hr + spo2_risk bo + temp_risk t).
Proof.
  intros (Hh & Hb & Ht).
  unfold row_risk_score. numeric_row Hh Hb Ht.
  block (0 + hr_risk hr).
  block (s + spo2_risk bo).
  block (s0 + temp_risk t).
  subst. first [reflexivity | f_equal; lia].
Qed.

Lemma row_risk_label_numeric row hr bo t :
  has_vitals row hr bo t →
  row_risk_label row = Ok (level_code (classify hr bo t)).
Proof.
  intros Hv. unfold row_risk_label, classify.
  rewrite (row_risk_score_numeric _ _ _ _ Hv). cbn [bind].
  by rewrite risk_label_spec, hr_risk_spec, spo2_risk_spec, temp_risk_spec.
Qed.

Lemma create_risk_labels_numeric
    (df : list (gmap string pyval)) (vs : list (num * num * num)) :
  Forall2 (λ row v, has_vitals row v.1.1 v.1.2 v.2) df vs →
  create_risk_labels df = Ok (map (λ v, level_code (classify v.1.1 v.1.2 v.2)) vs).
Proof.
  unfold create_risk_labels. induction 1 as [|row v df vs Hv _ IH]; [done|].
  cbn [mapM map]. unfold mbind, res_bind, mret, res_ret in *.
  by rewrite (row_risk_label_numeric _ _ _ _ Hv), IH.
Qed.

(** Whatever the row, a score that is returned lies in [0, 100]. *)
Lemma bind_Ok {A B} (m : res A) (k : A → res B) (b : B) :
  bind m k = Ok b → ∃ a, m = Ok a ∧ k a = Ok b.
Proof. destruct m; [eauto | done]. Qed.

Lemma calculate_health_score_range row s :
  calculate_health_score row = Ok s → 0 ≤ s ≤ 100.
Proof.
  unfold calculate_health_score. intros H.
  apply bind_Ok in H as (s1 & _ & H).
  apply bind_Ok in H as (s2 & _ & H).
  apply bind_Ok in H as (s3 & _ & H).
  injection H as <-. lia.
Qed.

(** ** Health score *)

(** C1: for every record with numeric heart_rate, blood_oxygen and
    temperature, the score is the reference definition of section 4.1:
    100, minus 10 or 25 for the heart rate bands, minus 15 or 30 for the
    blood oxygen bands, minus 10 or 20 for the temperature bands, clamped
    to [0, 100].  A NaN is not a number. *)
Theorem C1_score_is_reference row hr bo t :
  has_vitals row hr bo t →
  num_nan hr = false → num_nan bo = false → num_nan t = false →
  calculate_health_score row = Ok (Spec.score hr bo t).
Proof.
  intros Hv Hh Hb Ht. rewrite (calculate_health_score_numeric _ _ _ _ Hv).
  unfold Spec.score.
  by rewrite hr_deduction_spec, spo2_deduction_spec, temp_deduction_spec.
Qed.

Lemma C1_score_is_reference_witness :
  has_vitals row_mild (NInt 55) (NInt 92) (NFloat 37.6) ∧
  calculate_health_score row_mild = Ok (Spec.score (NInt 55) (NInt 92) (NFloat 37.6)).
Proof.
  assert (Hv : has_vitals row_mild (NInt 55) (NInt 92) (NFloat 37.6))
    by (repeat split; reflexivity).
  split; [exact Hv|].
  apply (C1_score_is_reference row_mild _ _ _ Hv); reflexivity.
Defined.

(** C3: the score of a record lies in [0, 100], and it is
    max(0, min(100, 100 - sum of the channel penalties)), also when all
    three channels are in their severe band. *)
Theorem C3_score_clamped row hr bo t :
  has_vitals row hr bo t →
  ∃ s, calculate_health_score row = Ok s ∧ 0 ≤ s ≤ 100 ∧
       (num_nan hr = false → num_nan bo = false → num_nan t = false →
        s = Z.max 0 (Z.min 100
              (100 - (hr_penalty hr + spo2_penalty bo + temp_penalty t)))).
Proof.
  intros Hv. eexists. split; [apply (calculate_health_score_numeric _ _ _ _ Hv)|].
  split; [unfold clamp; lia|].
  intros Hh Hb Ht.
  rewrite hr_deduction_spec, spo2_deduction_spec, temp_deduction_spec by done.
  unfold clamp. f_equal. f_equal. lia.
Qed.

Lemma C3_score_clamped_witness :
  has_vitals row_severe (NInt 45) (NInt 88) (NFloat 39.0) ∧
  ∃ s, calculate_health_score row_severe = Ok s ∧ 0 ≤ s ≤ 100 ∧
       (num_nan (NInt 45) = false → num_nan (NInt 88) = false →
        num_nan (NFloat 39.0) = false →
        s = Z.max 0 (Z.min 100
              (100 - (hr_penalty (NInt 45) + spo2_penalty (NInt 88)
                      + temp_penalty (NFloat 39.0))))).
Proof.
  assert (Hv : has_vitals row_severe (NInt 45) (NInt 88) (NFloat 39.0))
    by (repeat split; reflexivity).
  split; [exact Hv|].
  exact (C3_score_clamped row_severe _ _ _ Hv).
Defined.

(** C10: the three deductions add up to at most 25 + 30 + 20 = 75, so the
    score of a record with numeric vitals is at least 25 and the lower
    clamp at 0 never applies. *)
Theorem C10_score_at_least_25 row hr bo t :
  has_vitals row hr bo t →
  ∃ s p, calculate_health_score row = Ok s ∧
         p = hr_deduction hr + spo2_deduction bo + temp_deduction t ∧
         0 ≤ p ≤ 75 ∧ s = 100 - p ∧ 25 ≤ s ≤ 100.
Proof.
  intros Hv. eexists _, _.
  split; [apply (calculate_health_score_numeric _ _ _ _ Hv)|].
  split; [reflexivity|].
  pose proof (hr_deduction_range hr). pose proof (spo2_deduction_range bo).
  pose proof (temp_deduction_range t). unfold clamp. lia.
Qed.

Lemma C10_score_at_least_25_witness :
  has_vitals row_severe (NInt 45) (NInt 88) (NFloat 39.0) ∧
  ∃ s p, calculate_health_score row_severe = Ok s ∧
         p = hr_deduction (NInt 45) + spo2_deduction (NInt 88)
             + temp_deduction (NFloat 39.0) ∧
         0 ≤ p ≤ 75 ∧ s = 100 - p ∧ 25 ≤ s ≤ 100.
Proof.
  assert (Hv : has_vitals row_severe (NInt 45) (NInt 88) (NFloat 39.0))
    by (repeat split; reflexivity).
  split; [exact Hv|].
  exact (C10_score_at_least_25 row_severe _ _ _ Hv).
Defined.

(** Both ends of [25, 100] are scores of some record. *)
Example score_25_reached : calculate_health_score row_severe = Ok 25.
Proof. reflexivity. Qed.

Example score_100_reached : calculate_health_score row_normal = Ok 100.
Proof. reflexivity. Qed.

(** ** Risk label *)

(** C2: for every record with numeric vitals the label is the reference
    definition of section 4.2: +2 for heart_rate < 50 or > 120 and +1 for
    [50,60) or (100,120]; +2 for blood_oxygen < 90 and +1 for [90,95); +2
    for temperature < 35.5 or > 38.0 and +1 for [35.5,36.1) or (37.5,38.0];
    High from 4 points, Medium from 2, otherwise Low. *)
Theorem C2_label_is_reference row hr bo t :
  has_vitals row hr bo t →
  row_risk_score row = Ok (hr_points hr + spo2_points bo + temp_points t) ∧
  create_risk_labels [row] = Ok [level_code (classify hr bo t)].
Proof.
  intros Hv. split.
  - rewrite (row_risk_score_numeric _ _ _ _ Hv).
    by rewrite hr_risk_spec, spo2_risk_spec, temp_risk_spec.
  - apply (create_risk_labels_numeric [row] [(hr, bo, t)]).
    constructor; [exact Hv | constructor].
Qed.

Lemma C2_label_is_reference_witness :
  has_vitals row_mild (NInt 55) (NInt 92) (NFloat 37.6) ∧
  row_risk_score row_mild
    = Ok (hr_points (NInt 55) + spo2_points (NInt 92) + temp_points (NFloat 37.6)) ∧
  create_risk_labels [row_mild]
    = Ok [level_code (classify (NInt 55) (NInt 92) (NFloat 37.6))].
Proof.
  assert (Hv : has_vitals row_mild (NInt 55) (NInt 92) (NFloat 37.6))
    by (repeat split; reflexivity).
  split; [exact Hv|].
  exact (C2_label_is_reference row_mild _ _ _ Hv).
Defined.

(** The moderate band of the temperature starts above 37.5 for the label
    and above 37.2 for the score. *)
Example temperature_cutoffs_differ :
  temp_risk (NFloat 37.3) = 0 ∧ temp_deduction (NFloat 37.3) = 10 ∧
  temp_risk (NFloat 37.6) = 1 ∧ temp_deduction (NFloat 37.6) = 10.
Proof. repeat split; reflexivity. Qed.

(** C9: a heart rate of exactly 50 or exactly 120 is in the moderate
    band, for the score (10 off) and for the label (1 point), not in the
    severe band. *)
Theorem C9_boundaries_are_moderate row hr bo t :
  has_vitals row hr bo t →
  num_eq hr (NInt 50) = true ∨ num_eq hr (NInt 120) = true →
  calculate_health_score row
    = Ok (clamp (100 - 10 - spo2_deduction bo - temp_deduction t)) ∧
  row_risk_score row = Ok (1 + spo2_risk bo + temp_risk t) ∧
  hr_penalty hr = 10 ∧ hr_points hr = 1 ∧
  moderate HeartRate hr = true ∧ severe HeartRate hr = false.
Proof.
  intros Hv Hhr.
  assert (hr_deduction hr = 10 ∧ hr_risk hr = 1 ∧ hr_penalty hr = 10 ∧
          hr_points hr = 1 ∧ moderate HeartRate hr = true ∧
          severe HeartRate hr = false) as (Hd & Hr & Hp & Hq & Hm & Hs).
  { assert (Hn : num_nan hr = false).
    { destruct (num_nan hr) eqn:Hn; [|done]. unfold num_eq in Hhr.
      rewrite !(num_compare_nan_l hr _ Hn) in Hhr. by destruct Hhr. }
    hr_bounds hr. hr_ordered hr Hn.
    unfold hr_deduction, hr_risk, hr_penalty, hr_points.
    destruct Hhr; order_cases hr. }
  rewrite (calculate_health_score_numeric _ _ _ _ Hv),
    (row_risk_score_numeric _ _ _ _ Hv), Hd, Hr. done.
Qed.

Lemma C9_boundaries_are_moderate_witness :
  (has_vitals row_hr_50 (NInt 50) (NInt 98) (NFloat 36.6) ∧
   calculate_health_score row_hr_50 = Ok 90 ∧ row_risk_score row_hr_50 = Ok 1) ∧
  (has_vitals row_hr_120 (NInt 120) (NInt 98) (NFloat 36.6) ∧
   calculate_health_score row_hr_120 = Ok 90 ∧ row_risk_score row_hr_120 = Ok 1).
Proof.
  assert (H50 : has_vitals row_hr_50 (NInt 50) (NInt 98) (NFloat 36.6))
    by (repeat split; reflexivity).
  assert (H120 : has_vitals row_hr_120 (NInt 120) (NInt 98) (NFloat 36.6))
    by (repeat split; reflexivity).
  split.
  - split; [exact H50|].
    destruct (C9_boundaries_are_moderate row_hr_50 _ _ _ H50 (or_introl eq_refl))
      as (Hs & Hr & _).
    split; [exact Hs | exact Hr].
  - split; [exact H120|].
    destruct (C9_boundaries_are_moderate row_hr_120 _ _ _ H120 (or_intror eq_refl))
      as (Hs & Hr & _).
    split; [exact Hs | exact Hr].
Defined.

(** ** Monotonicity of the label *)

Lemma in_band_not_nan (b : band) (k : channel) (v : num) :
  in_band b k v = true → num_nan v = false.
Proof.
  destruct (num_nan v) eqn:Hn; [|done]. intros Hb. exfalso. revert Hb.
  destruct b, k; cbn [in_band]; nan_case v Hn.
Qed.

(** A value in a band earns the points of the band. *)
Lemma in_band_points (b : band) (k : channel) (v : num) :
  in_band b k v = true → points k v = band_points b.
Proof.
  intros Hb. pose proof (in_band_not_nan _ _ _ Hb) as Hn.
  destruct k; cbn [points].
  - hr_bounds v. hr_ordered v Hn. unfold hr_points.
    destruct b; cbn [in_band band_points] in *; order_cases v.
  - pose proof (spo2_90_95 v). spo2_ordered v Hn. unfold spo2_points.
    destruct b; cbn [in_band band_points] in *; order_cases v.
  - temp_risk_bounds v. temp_risk_ordered v Hn. unfold temp_points.
    destruct b; cbn [in_band band_points] in *; order_cases v.
Qed.

Lemma label_of_mono (s s' : Z) :
  s ≤ s' → level_code (label_of s) ≤ level_code (label_of s').
Proof.
  intros Hs. unfold label_of.
  destruct (Z.leb_spec 4 s), (Z.leb_spec 2 s), (Z.leb_spec 4 s'),
    (Z.leb_spec 2 s'); cbn; lia.
Qed.

Lemma classify_points (hr bo t : num) :
  classify hr bo t
  = label_of (points HeartRate hr + points BloodOxygen bo + points Temperature t).
Proof. reflexivity. Qed.

(** Replacing the value of one channel in a row. *)
Lemma has_vitals_insert row hr bo t (k : channel) (v' : num) :
  has_vitals row hr bo t →
  has_vitals (<[field k := PyNum v']> row)
    (if k is HeartRate then v' else hr)
    (if k is BloodOxygen then v' else bo)
    (if k is Temperature then v' else t).
Proof.
  intros (Hh & Hb & Ht). destruct k; cbn [field];
    repeat split; by simplify_map_eq.
Qed.

(** C4: moving one channel from its normal band into its moderate band,
    or from its moderate band into its severe band, while the other two
    channels stay as they are, never lowers the label (Low < Medium <
    High, that is 0 < 1 < 2). *)
Theorem C4_label_monotone row hr bo t (k : channel) (v' : num) (b b' : band) :
  has_vitals row hr bo t →
  in_band b k (vital k hr bo t) = true →
  in_band b' k v' = true →
  worsens b b' →
  ∃ l l', create_risk_labels [row] = Ok [level_code l] ∧
          create_risk_labels [<[field k := PyNum v']> row] = Ok [level_code l'] ∧
          level_code l ≤ level_code l'.
Proof.
  intros Hv Hb Hb' Hw.
  pose proof (has_vitals_insert _ _ _ _ k v' Hv) as Hv'.
  eexists _, _. split; [|split].
  - apply (create_risk_labels_numeric [row] [(hr, bo, t)]).
    constructor; [exact Hv | constructor].
  - apply (create_risk_labels_numeric [_]
             [(if k is HeartRate then v' else hr,
               if k is BloodOxygen then v' else bo,
               if k is Temperature then v' else t)]).
    constructor; [exact Hv' | constructor].
  - cbn [fst snd]. rewrite !classify_points. apply label_of_mono.
    apply in_band_points in Hb, Hb'.
    assert (band_points b ≤ band_points b') by (destruct Hw; cbn; lia).
    destruct k; cbn [vital] in *; lia.
Qed.

Lemma C4_label_monotone_witness :
  has_vitals row_mild (NInt 55) (NInt 92) (NFloat 37.6) ∧
  in_band Moderate Temperature (NFloat 37.6) = true ∧
  in_band Severe Temperature (NFloat 38.4) = true ∧
  worsens Moderate Severe ∧
  ∃ l l', create_risk_labels [row_mild] = Ok [level_code l] ∧
          create_risk_labels [<["temperature" := flt 38.4]> row_mild]
          = Ok [level_code l'] ∧
          level_code l ≤ level_code l'.
Proof.
  assert (Hv : has_vitals row_mild (NInt 55) (NInt 92) (NFloat 37.6))
    by (repeat split; reflexivity).
  split; [exact Hv|]. split; [reflexivity|]. split; [reflexivity|].
  split; [constructor|].
  exact (C4_label_monotone row_mild _ _ _ Temperature (NFloat 38.4)
           Moderate Severe Hv eq_refl eq_refl worsens_moderate).
Defined.

(** At the sample record the step from moderate to severe temperature
    lifts the label from Medium to High. *)
Example label_rises :
  create_risk_labels [row_mild; <["temperature" := flt 38.4]> row_mild] = Ok [1; 2].
Proof. reflexivity. Qed.

(** ** Recommendations *)

Ltac recommend_row Hh Hb Ht :=
  unfold generate_recommendations, get; rewrite Hh, Hb, Ht; cbn.

(** C7: for heart_rate 45, blood_oxygen 88, temperature 39.0, status
    Anomaly and High risk the result has at least 5 entries, among them
    the low heart rate message, the urgent critical oxygen message, the
    urgent fever message, the urgent High risk message and the anomaly
    message. *)
Theorem C7_severe_record_messages (row : gmap string pyval) :
  row !! "heart_rate" = Some (int 45) →
  row !! "blood_oxygen" = Some (int 88) →
  row !! "temperature" = Some (flt 39.0) →
  ∃ l, generate_recommendations row "Anomaly" "High Risk" = Ok l ∧
       (5 ≤ length l)%nat ∧
       msg_hr_low ∈ l ∧
       msg_spo2_critical ∈ l ∧ is_urgent msg_spo2_critical = true ∧
       msg_temp_fever ∈ l ∧ is_urgent msg_temp_fever = true ∧
       msg_risk_high ∈ l ∧ is_urgent msg_risk_high = true ∧
       msg_anomaly ∈ l.
Proof.
  intros Hh Hb Ht. recommend_row Hh Hb Ht.
  repeat case_match; eexists; (split; [reflexivity|]);
    cbn [length app]; (split; [lia|]); repeat split; set_solver.
Qed.

Lemma C7_severe_record_messages_witness :
  ∃ l, generate_recommendations row_severe "Anomaly" "High Risk" = Ok l ∧
       (5 ≤ length l)%nat ∧
       msg_hr_low ∈ l ∧
       msg_spo2_critical ∈ l ∧ is_urgent msg_spo2_critical = true ∧
       msg_temp_fever ∈ l ∧ is_urgent msg_temp_fever = true ∧
       msg_risk_high ∈ l ∧ is_urgent msg_risk_high = true ∧
       msg_anomaly ∈ l.
Proof.
  apply (C7_severe_record_messages row_severe); reflexivity.
Defined.

(** The nine entries of that result, in order. *)
Example severe_record_recommendations :
  generate_recommendations row_severe "Anomaly" "High Risk"
  = Ok [msg_hr_low; msg_hr_low_tip; msg_spo2_low; msg_spo2_critical;
        msg_temp_high; msg_temp_fever; msg_risk_high; msg_risk_high_tip;
        msg_anomaly].
Proof. reflexivity. Qed.

(** C8: for heart_rate 75, blood_oxygen 98, temperature 36.6, moderate
    activity, status Normal and Low risk the result holds the two Low
    risk entries and nothing else; none of them is a warning or urgent. *)
Theorem C8_normal_record_messages (row : gmap string pyval) :
  row !! "heart_rate" = Some (int 75) →
  row !! "blood_oxygen" = Some (int 98) →
  row !! "temperature" = Some (flt 36.6) →
  row !! "activity_level" = Some (PyStr "moderate") →
  generate_recommendations row "Normal" "Low Risk"
    = Ok [msg_risk_low; msg_risk_low_tip] ∧
  Forall (λ s, is_warning s = false ∧ is_urgent s = false)
    [msg_risk_low; msg_risk_low_tip].
Proof.
  intros Hh Hb Ht Ha. split.
  - recommend_row Hh Hb Ht. by rewrite Ha.
  - by repeat constructor.
Qed.

Lemma C8_normal_record_messages_witness :
  generate_recommendations row_normal "Normal" "Low Risk"
    = Ok [msg_risk_low; msg_risk_low_tip] ∧
  Forall (λ s, is_warning s = false ∧ is_urgent s = false)
    [msg_risk_low; msg_risk_low_tip].
Proof.
  apply (C8_normal_record_messages row_normal); reflexivity.
Defined.

(** Which of the eighteen entries are warnings and which are urgent. *)
Example message_kinds :
  filter (λ s, is_warning s = true)
    [msg_hr_low; msg_hr_low_tip; msg_hr_high; msg_hr_high_tip; msg_spo2_low;
     msg_spo2_critical; msg_temp_high; msg_temp_fever; msg_temp_low;
     msg_activity_low; msg_activity_high; msg_risk_high; msg_risk_high_tip;
     msg_risk_medium; msg_risk_medium_tip; msg_risk_low; msg_risk_low_tip;
     msg_anomaly]
  = [msg_hr_low; msg_hr_high; msg_spo2_low; msg_temp_high; msg_temp_low;
     msg_activity_high; msg_risk_medium; msg_anomaly] ∧
  filter (λ s, is_urgent s = true)
    [msg_hr_low; msg_hr_low_tip; msg_hr_high; msg_hr_high_tip; msg_spo2_low;
     msg_spo2_critical; msg_temp_high; msg_temp_fever; msg_temp_low;
     msg_activity_low; msg_activity_high; msg_risk_high; msg_risk_high_tip;
     msg_risk_medium; msg_risk_medium_tip; msg_risk_low; msg_risk_low_tip;
     msg_anomaly]
  = [msg_spo2_critical; msg_temp_fever; msg_risk_high].
Proof. split; reflexivity. Qed.

(** *** The number of entries *)

(** Case analysis on the conditions of a block that returned. *)
Ltac block_cases H :=
  repeat match type of H with
         | bind ?m _ = Ok _ => destruct m as [[]|]; cbn [bind] in H
         end;
  try discriminate H; injection H as <-.

Lemma generate_recommendations_length row a r l :
  generate_recommendations row a r = Ok l → (2 ≤ length l ≤ 10)%nat.
Proof.
  unfold generate_recommendations. intros H.
  apply bind_Ok in H as (l1 & H1 & H).
  apply bind_Ok in H as (l2 & H2 & H).
  apply bind_Ok in H as (l3 & H3 & H).
  assert (length l1 ≤ 2)%nat by (block_cases H1; cbn; lia).
  assert (length l1 ≤ length l2 ≤ length l1 + 2)%nat
    by (block_cases H2; rewrite ?length_app; cbn; lia).
  assert (length l2 ≤ length l3 ≤ length l2 + 2)%nat
    by (block_cases H3; rewrite ?length_app; cbn; lia).
  injection H as <-.
  repeat case_match; rewrite ?length_app; cbn [length]; lia.
Qed.

(** C6, as the code has it: the result has between two and ten entries;
    the risk level block always contributes two, so it is never empty.
    Both ends occur. *)
Theorem C6_between_two_and_ten_entries row a r l :
  generate_recommendations row a r = Ok l →
  (2 ≤ length l ≤ 10)%nat ∧ l ≠ [] ∧
  (∃ l2, generate_recommendations row_normal "Normal" "Low Risk" = Ok l2 ∧
         length l2 = 2%nat) ∧
  (∃ l10, generate_recommendations row_busy "Anomaly" "High Risk" = Ok l10 ∧
          length l10 = 10%nat).
Proof.
  intros H. apply generate_recommendations_length in H.
  split; [exact H|]. split; [by destruct l; [cbn in H; lia|]|].
  split; eexists; (split; [reflexivity|reflexivity]).
Qed.

Lemma C6_between_two_and_ten_entries_witness :
  (2 ≤ length [msg_risk_low; msg_risk_low_tip] ≤ 10)%nat ∧
  [msg_risk_low; msg_risk_low_tip] ≠ [].
Proof.
  destruct (C6_between_two_and_ten_entries row_normal "Normal" "Low Risk"
              [msg_risk_low; msg_risk_low_tip] eq_refl) as (H & Hne & _).
  split; [exact H | exact Hne].
Defined.

(** C6 as the specification words it, with a result of zero entries
    for some input, fails: no input gives an empty result. *)
Lemma C6_never_empty :
  ¬ ∃ row a r, generate_recommendations row a r = Ok [].
Proof.
  intros (row & a & r & H). apply generate_recommendations_length in H.
  cbn in H. lia.
Qed.

(** ** Missing and malformed fields *)

Lemma is_ok_bind_l {A B} (m : res A) (k : A → res B) :
  is_ok m = false → is_ok (bind m k) = false.
Proof. by destruct m. Qed.

Lemma is_ok_bind_r {A B} (m : res A) (k : A → res B) :
  (∀ a, is_ok (k a) = false) → is_ok (bind m k) = false.
Proof. intros Hk. destruct m; [apply Hk | done]. Qed.

(** The first condition of a block, on a field that is not a number. *)
Ltac raises Hk :=
  apply is_ok_bind_l; unfold item;
  match type of Hk with
  | numeric (?row !! ?f) = false => destruct (row !! f) as [[?|?|]|]
  end; done.

Lemma calculate_health_score_raises row (k : channel) :
  numeric (row !! field k) = false → is_ok (calculate_health_score row) = false.
Proof.
  intros Hk. unfold calculate_health_score. destruct k; cbn [field] in Hk.
  - raises Hk.
  - apply is_ok_bind_r; intros s. raises Hk.
  - apply is_ok_bind_r; intros s. apply is_ok_bind_r; intros s'. raises Hk.
Qed.

Lemma row_risk_score_raises row (k : channel) :
  numeric (row !! field k) = false → is_ok (row_risk_score row) = false.
Proof.
  intros Hk. unfold row_risk_score. destruct k; cbn [field] in Hk.
  - raises Hk.
  - apply is_ok_bind_r; intros s. raises Hk.
  - apply is_ok_bind_r; intros s. apply is_ok_bind_r; intros s'. raises Hk.
Qed.

Lemma create_risk_labels_raises row (k : channel) :
  numeric (row !! field k) = false → is_ok (create_risk_labels [row]) = false.
Proof.
  intros Hk. unfold create_risk_labels. cbn [mapM].
  unfold mbind, res_bind, row_risk_label.
  do 2 apply is_ok_bind_l. by apply (row_risk_score_raises row k).
Qed.

(** Case analysis on the conditions met on the way to the result. *)
Ltac run_blocks :=
  repeat (cbn;
          match goal with
          | |- context [if num_lt ?a ?b then _ else _] => destruct (num_lt a b)
          | |- context [if num_gt ?a ?b then _ else _] => destruct (num_gt a b)
          end);
  cbn.

Lemma generate_recommendations_type_error row (k : channel) (v : pyval) a r :
  row !! field k = Some v → numeric (Some v) = false →
  generate_recommendations row a r = Raise TypeError.
Proof.
  intros Hk Hv. unfold generate_recommendations, get.
  destruct v as [n|s|]; [done|..]; destruct k; cbn [field] in Hk; rewrite Hk.
  all: try (destruct (default (int 0) (row !! "heart_rate")) as [?|?|]).
  all: try (destruct (default (int 100) (row !! "blood_oxygen")) as [?|?|]).
  all: run_blocks; reflexivity.
Qed.

Lemma generate_recommendations_default row (k : channel) a r :
  row !! field k = None →
  generate_recommendations row a r
  = generate_recommendations (<[field k := default_vital k]> row) a r.
Proof.
  intros Hk. unfold generate_recommendations, get.
  destruct k; cbn [field default_vital] in *; by simplify_map_eq.
Qed.

Lemma generate_recommendations_numeric row hr bo t a r :
  has_vitals row hr bo t → is_ok (generate_recommendations row a r) = true.
Proof.
  intros (Hh & Hb & Ht). unfold generate_recommendations, get.
  rewrite Hh, Hb, Ht. run_blocks; reflexivity.
Qed.

(** C5, as the code has it.  A vital that is missing or not a number
    makes the score and the label raise.  The recommendations raise
    TypeError when the field is present and not a number; when it is
    absent they are those of the record with the default in its place
    (heart_rate 0, blood_oxygen 100, temperature 36.5).  A number is never
    rejected, whatever its value. *)
Theorem C5_errors_and_defaults (row : gmap string pyval) :
  (∀ k : channel,
     numeric (row !! field k) = false →
     is_ok (calculate_health_score row) = false ∧
     is_ok (create_risk_labels [row]) = false ∧
     ∀ a r,
       match row !! field k with
       | Some _ => generate_recommendations row a r = Raise TypeError
       | None =>
           generate_recommendations row a r
           = generate_recommendations (<[field k := default_vital k]> row) a r
       end) ∧
  (∀ hr bo t,
     has_vitals row hr bo t →
     is_ok (calculate_health_score row) = true ∧
     is_ok (create_risk_labels [row]) = true ∧
     ∀ a r, is_ok (generate_recommendations row a r) = true).
Proof.
  split.
  - intros k Hk.
    split; [by apply (calculate_health_score_raises row k)|].
    split; [by apply (create_risk_labels_raises row k)|].
    intros a r. destruct (row !! field k) as [v|] eqn:Hv.
    + by apply (generate_recommendations_type_error row k v).
    + by apply generate_recommendations_default.
  - intros hr bo t Hv.
    split; [by rewrite (calculate_health_score_numeric _ _ _ _ Hv)|].
    split.
    + by rewrite (create_risk_labels_numeric [row] [(hr, bo, t)])
        by (constructor; [exact Hv | constructor]).
    + intros a r. by apply (generate_recommendations_numeric row hr bo t).
Qed.

Lemma C5_errors_and_defaults_witness :
  (numeric (row_temp_text !! field Temperature) = false ∧
   is_ok (calculate_health_score row_temp_text) = false ∧
   is_ok (create_risk_labels [row_temp_text]) = false ∧
   generate_recommendations row_temp_text "Normal" "Low Risk" = Raise TypeError) ∧
  (numeric (row_empty !! field HeartRate) = false ∧
   generate_recommendations row_empty "Normal" "Low Risk"
   = generate_recommendations (<["heart_rate" := int 0]> row_empty)
       "Normal" "Low Risk") ∧
  (has_vitals row_spo2_negative (NInt 75) (NInt (-5)) (NFloat 36.6) ∧
   is_ok (calculate_health_score row_spo2_negative) = true).
Proof.
  split; [|split].
  - destruct (C5_errors_and_defaults row_temp_text) as [H _].
    destruct (H Temperature eq_refl) as (Hs & Hl & Hr).
    split; [reflexivity|]. split; [exact Hs|]. split; [exact Hl|].
    exact (Hr "Normal" "Low Risk").
  - destruct (C5_errors_and_defaults row_empty) as [H _].
    destruct (H HeartRate eq_refl) as (_ & _ & Hr).
    split; [reflexivity|]. exact (Hr "Normal" "Low Risk").
  - assert (Hv : has_vitals row_spo2_negative (NInt 75) (NInt (-5)) (NFloat 36.6))
      by (repeat split; reflexivity).
    destruct (C5_errors_and_defaults row_spo2_negative) as [_ H].
    destruct (H _ _ _ Hv) as (Hs & _).
    split; [exact Hv | exact Hs].
Defined.

(** C5 as the specification words it, with every such record failing
    fast, does not hold: the empty record gets recommendations for the
    defaults (a heart rate of 0 is reported as low), and a negative blood
    oxygen is scored like any other value below 90. *)
Lemma C5_defaults_instead_of_errors :
  numeric (row_empty !! "heart_rate") = false ∧
  generate_recommendations row_empty "Normal" "Low Risk"
    = Ok [msg_hr_low; msg_hr_low_tip; msg_risk_low; msg_risk_low_tip] ∧
  row_spo2_negative !! "blood_oxygen" = Some (int (-5)) ∧
  calculate_health_score row_spo2_negative = Ok 70 ∧
  create_risk_labels [row_spo2_negative] = Ok [1] ∧
  is_ok (generate_recommendations row_spo2_negative "Normal" "Low Risk") = true.
Proof. repeat split; reflexivity. Qed.

(** The exceptions of the score: KeyError names the missing column,
    TypeError comes from the comparison. *)
Example score_exceptions :
  calculate_health_score row_empty = Raise (KeyError "heart_rate") ∧
  calculate_health_score row_hr_none = Raise TypeError ∧
  calculate_health_score row_temp_text = Raise TypeError ∧
  create_risk_labels [row_normal; row_empty] = Raise (KeyError "heart_rate").
Proof. repeat split; reflexivity. Qed.

(** A NaN, which is how pandas stores a missing number, is not rejected
    either: the score takes the largest deduction for it and the risk
    score adds nothing. *)
Example nan_is_scored :
  calculate_health_score (<["temperature" := flt nan]> row_normal) = Ok 80 ∧
  row_risk_score (<["temperature" := flt nan]> row_normal) = Ok 0.
Proof. split; reflexivity. Qed.


(** * Further properties of the scoring rules *)

(** ** Score and label together *)

Lemma create_risk_labels_single row hr bo t :
  has_vitals row hr bo t →
  create_risk_labels [row] = Ok [risk_label (hr_risk hr + spo2_risk bo + temp_risk t)].
Proof.
  intros Hv. unfold create_risk_labels. cbn [mapM].
  unfold mbind, res_bind, mret, res_ret, row_risk_label.
  by rewrite (row_risk_score_numeric _ _ _ _ Hv).
Qed.

(** The score is 100 exactly when the first condition of each block
    holds: heart rate in [60, 100], blood oxygen at least 95,
    temperature in [36.1, 37.2]. *)
Theorem score_100_iff_all_normal row hr bo t :
  has_vitals row hr bo t →
  calculate_health_score row = Ok 100 ↔
  in_score_band Normal HeartRate hr = true ∧
  in_score_band Normal BloodOxygen bo = true ∧
  in_score_band Normal Temperature t = true.
Proof.
  intros Hv. rewrite (calculate_health_score_numeric _ _ _ _ Hv).
  pose proof (hr_deduction_range hr). pose proof (spo2_deduction_range bo).
  pose proof (temp_deduction_range t).
  assert (Hh : hr_deduction hr = 0 ↔ in_score_band Normal HeartRate hr = true).
  { unfold hr_deduction. cbn. unfold in_cc. repeat case_match; split; done. }
  assert (Hb : spo2_deduction bo = 0 ↔ in_score_band Normal BloodOxygen bo = true).
  { unfold spo2_deduction. cbn. unfold num_ge, num_le.
    rewrite (num_compare_antisym bo (NInt 95)).
    destruct (num_compare bo (NInt 95)) as [[]|]; cbn; repeat case_match;
      split; done. }
  assert (Ht : temp_deduction t = 0 ↔ in_score_band Normal Temperature t = true).
  { unfold temp_deduction. cbn. unfold in_cc. repeat case_match; split; done. }
  rewrite <- Hh, <- Hb, <- Ht. unfold clamp. split.
  - intros [= Hs]. lia.
  - intros (-> & -> & ->). done.
Qed.

Lemma score_100_iff_all_normal_witness :
  calculate_health_score row_normal = Ok 100 ↔
  in_score_band Normal HeartRate (NInt 75) = true ∧
  in_score_band Normal BloodOxygen (NInt 98) = true ∧
  in_score_band Normal Temperature (NFloat 36.6) = true.
Proof.
  apply (score_100_iff_all_normal row_normal); repeat split; reflexivity.
Defined.

(** Points and deduction of one channel go together. *)
Lemma hr_risk_deduction (hr : num) :
  num_nan hr = false →
  (hr_risk hr = 0 ∧ hr_deduction hr = 0) ∨
  (hr_risk hr = 1 ∧ hr_deduction hr = 10) ∨
  (hr_risk hr = 2 ∧ hr_deduction hr = 25).
Proof.
  intros Hn. hr_bounds hr. hr_ordered hr Hn.
  unfold hr_risk, hr_deduction. order_cases hr; lia.
Qed.

Lemma spo2_risk_deduction (bo : num) :
  num_nan bo = false →
  (spo2_risk bo = 0 ∧ spo2_deduction bo = 0) ∨
  (spo2_risk bo = 1 ∧ spo2_deduction bo = 15) ∨
  (spo2_risk bo = 2 ∧ spo2_deduction bo = 30).
Proof.
  intros Hn. pose proof (spo2_90_95 bo). spo2_ordered bo Hn.
  unfold spo2_risk, spo2_deduction. order_cases bo; lia.
Qed.

Lemma temp_372_375 (v : num) :
  num_le v (NFloat 37.2) = true → num_lt v (NFloat 37.5) = true.
Proof. by eapply float_bounds_mono. Qed.

Lemma temp_risk_deduction (t : num) :
  num_nan t = false →
  (temp_risk t = 0 ∧ temp_deduction t = 0) ∨
  (temp_risk t = 0 ∧ temp_deduction t = 10) ∨
  (temp_risk t = 1 ∧ temp_deduction t = 10) ∨
  (temp_risk t = 2 ∧ temp_deduction t = 20).
Proof.
  intros Hn. temp_score_bounds t. temp_risk_bounds t.
  pose proof (temp_372_375 t).
  temp_score_ordered t Hn. ordered t Hn (NFloat 37.5).
  unfold temp_risk, temp_deduction. order_cases t; lia.
Qed.

(** On a record of three numbers the label bounds the score: Low gives at
    least 75, Medium between 50 and 80, High at most 55. *)
Theorem label_bounds_score row hr bo t :
  has_vitals row hr bo t →
  num_nan hr = false → num_nan bo = false → num_nan t = false →
  ∃ s l, calculate_health_score row = Ok s ∧ create_risk_labels [row] = Ok [l] ∧
         (l = 0 → 75 ≤ s ≤ 100) ∧ (l = 1 → 50 ≤ s ≤ 80) ∧ (l = 2 → 25 ≤ s ≤ 55) ∧
         (l = 0 ∨ l = 1 ∨ l = 2).
Proof.
  intros Hv Hh Hb Ht. eexists _, _.
  split; [apply (calculate_health_score_numeric _ _ _ _ Hv)|].
  split; [apply (create_risk_labels_single _ _ _ _ Hv)|].
  destruct (hr_risk_deduction hr Hh) as [[-> ->]|[[-> ->]|[-> ->]]],
    (spo2_risk_deduction bo Hb) as [[-> ->]|[[-> ->]|[-> ->]]],
    (temp_risk_deduction t Ht) as [[-> ->]|[[-> ->]|[[-> ->]|[-> ->]]]];
    unfold risk_label, clamp; simpl; lia.
Qed.

Lemma label_bounds_score_witness :
  ∃ s l, calculate_health_score row_mild = Ok s ∧
         create_risk_labels [row_mild] = Ok [l] ∧
         (l = 0 → 75 ≤ s ≤ 100) ∧ (l = 1 → 50 ≤ s ≤ 80) ∧ (l = 2 → 25 ≤ s ≤ 55) ∧
         (l = 0 ∨ l = 1 ∨ l = 2).
Proof.
  apply (label_bounds_score row_mild (NInt 55) (NInt 92) (NFloat 37.6));
    repeat split; reflexivity.
Defined.

(** ** The recommendations in closed form *)

(** A call that returns has met three numbers, present or defaulted, and
    its result is the concatenation of what the six blocks append. *)
Lemma generate_recommendations_Ok row a r l :
  generate_recommendations row a r = Ok l →
  ∃ hr bo t,
    get row "heart_rate" (int 0) = PyNum hr ∧
    get row "blood_oxygen" (int 100) = PyNum bo ∧
    get row "temperature" (flt 36.5) = PyNum t ∧
    l = hr_advice hr ++ spo2_advice bo ++ temp_advice t
        ++ activity_advice (get row "activity_level" (PyStr "moderate")) r
        ++ risk_advice r ++ anomaly_advice a.
Proof.
  unfold generate_recommendations.
  destruct (get row "heart_rate" (int 0)) as [hr|?|]; [|done..].
  destruct (get row "blood_oxygen" (int 100)) as [bo|?|];
    [|run_blocks; done..].
  destruct (get row "temperature" (flt 36.5)) as [t|?|];
    [|run_blocks; done..].
  intros H. exists hr, bo, t. repeat split.
  revert H. unfold hr_advice, spo2_advice, temp_advice, activity_advice,
    risk_advice, anomaly_advice.
  run_blocks; repeat case_match; by intros [= <-].
Qed.

Lemma generate_recommendations_closed row hr bo t a r :
  has_vitals row hr bo t →
  generate_recommendations row a r
  = Ok (hr_advice hr ++ spo2_advice bo ++ temp_advice t
        ++ activity_advice (get row "activity_level" (PyStr "moderate")) r
        ++ risk_advice r ++ anomaly_advice a).
Proof.
  intros Hv. pose proof (generate_recommendations_numeric row hr bo t a r Hv) as Hok.
  destruct (generate_recommendations row a r) as [l|] eqn:Hl; [|done].
  apply generate_recommendations_Ok in Hl as (hr' & bo' & t' & Hh & Hb & Ht & ->).
  destruct Hv as (Hh' & Hb' & Ht'). unfold get in Hh, Hb, Ht.
  rewrite Hh' in Hh. rewrite Hb' in Hb. rewrite Ht' in Ht.
  cbn in Hh, Hb, Ht. by simplify_eq.
Qed.

(** ** What a result can contain *)

Lemma catalogue_NoDup : NoDup catalogue.
Proof. compute_done. Qed.

(** Whatever the input, a result lists entries of the catalogue in the
    order of the catalogue, each at most once. *)
Theorem recommendations_follow_catalogue row a r l :
  generate_recommendations row a r = Ok l →
  l `sublist_of` catalogue ∧ NoDup l.
Proof.
  intros H. apply generate_recommendations_Ok in H as (hr & bo & t & _ & _ & _ & ->).
  assert (Hs : hr_advice hr ++ spo2_advice bo ++ temp_advice t
               ++ activity_advice (get row "activity_level" (PyStr "moderate")) r
               ++ risk_advice r ++ anomaly_advice a `sublist_of` catalogue).
  { change catalogue with
      ([msg_hr_low; msg_hr_low_tip; msg_hr_high; msg_hr_high_tip]
       ++ [msg_spo2_low; msg_spo2_critical]
       ++ [msg_temp_high; msg_temp_fever; msg_temp_low]
       ++ [msg_activity_low; msg_activity_high]
       ++ [msg_risk_high; msg_risk_high_tip; msg_risk_medium;
           msg_risk_medium_tip; msg_risk_low; msg_risk_low_tip]
       ++ [msg_anomaly]).
    unfold hr_advice, spo2_advice, temp_advice, activity_advice, risk_advice,
      anomaly_advice.
    repeat apply sublist_app; repeat case_match;
      repeat first [apply sublist_nil | apply sublist_skip | apply sublist_cons]. }
  split; [exact Hs|]. exact (sublist_NoDup _ _ catalogue_NoDup Hs).
Qed.

Lemma recommendations_follow_catalogue_witness :
  [msg_risk_low; msg_risk_low_tip] `sublist_of` catalogue ∧
  NoDup [msg_risk_low; msg_risk_low_tip].
Proof.
  exact (recommendations_follow_catalogue row_normal "Normal" "Low Risk" _ eq_refl).
Defined.

(** Only the exact strings count: a status other than "Anomaly" is
    treated as Normal, and a level other than "High Risk" and "Medium
    Risk" is treated as Low Risk, on every record. *)
Theorem unknown_labels_read_as_normal_low row a r :
  a ≠ "Anomaly" → r ≠ "High Risk" → r ≠ "Medium Risk" →
  generate_recommendations row a r
  = generate_recommendations row "Normal" "Low Risk".
Proof.
  intros Ha Hh Hm. unfold generate_recommendations.
  apply String.eqb_neq in Ha, Hh, Hm.
  cbn [existsb]. rewrite Ha, Hh, Hm. reflexivity.
Qed.

Lemma unknown_labels_read_as_normal_low_witness :
  generate_recommendations row_severe "anomaly" "HIGH RISK"
  = generate_recommendations row_severe "Normal" "Low Risk".
Proof.
  apply unknown_labels_read_as_normal_low; discriminate.
Defined.

(** ** A NaN among the vitals *)

Lemma risk_nan (v : num) :
  num_nan v = true → hr_risk v = 0 ∧ spo2_risk v = 0 ∧ temp_risk v = 0.
Proof.
  intros Hn. unfold hr_risk, spo2_risk, temp_risk. repeat split; nan_case v Hn.
Qed.

Lemma advice_nan (v : num) :
  num_nan v = true → hr_advice v = [] ∧ spo2_advice v = [] ∧ temp_advice v = [].
Proof.
  intros Hn. unfold hr_advice, spo2_advice, temp_advice. repeat split; nan_case v Hn.
Qed.

Lemma get_insert_ne (row : gmap string pyval) (f g : string) (v d : pyval) :
  f ≠ g → get (<[f := v]> row) g d = get row g d.
Proof. intros Hne. unfold get. by rewrite lookup_insert_ne. Qed.

(** The three functions disagree on a NaN, the value pandas stores for a
    missing number.  Against the same record with a normal value in its
    place, the score loses the largest deduction of the channel, while
    the risk score and the recommendations are unchanged. *)
Theorem nan_vital_costs_points_without_advice row hr bo t (k : channel) :
  has_vitals row hr bo t →
  num_nan (vital k hr bo t) = true →
  ∃ s s',
    calculate_health_score row = Ok s ∧
    calculate_health_score (<[field k := normal_vital k]> row) = Ok s' ∧
    s = s' - band_deduction k Severe ∧
    row_risk_score row = row_risk_score (<[field k := normal_vital k]> row) ∧
    ∀ a r, generate_recommendations row a r
           = generate_recommendations (<[field k := normal_vital k]> row) a r.
Proof.
  intros Hv Hn.
  pose proof (has_vitals_insert _ _ _ _ k (normal_num k) Hv) as Hv'.
  fold (normal_vital k) in Hv'.
  pose proof (deduction_nan _ Hn) as (Dh & Db & Dt).
  pose proof (risk_nan _ Hn) as (Rh & Rb & Rt).
  pose proof (advice_nan _ Hn) as (Ah & Ab & At).
  pose proof (hr_deduction_range hr). pose proof (spo2_deduction_range bo).
  pose proof (temp_deduction_range t).
  eexists _, _.
  split; [apply (calculate_health_score_numeric _ _ _ _ Hv)|].
  split; [apply (calculate_health_score_numeric _ _ _ _ Hv')|].
  rewrite (row_risk_score_numeric _ _ _ _ Hv), (row_risk_score_numeric _ _ _ _ Hv').
  split; [|split].
  - destruct k; cbn [vital normal_num band_deduction] in *.
    + rewrite Dh. change (hr_deduction (NInt 75)) with 0. unfold clamp. lia.
    + rewrite Db. change (spo2_deduction (NInt 98)) with 0. unfold clamp. lia.
    + rewrite Dt. change (temp_deduction (NFloat 36.6)) with 0. unfold clamp. lia.
  - destruct k; cbn [vital normal_num] in *.
    + by rewrite Rh.
    + by rewrite Rb.
    + by rewrite Rt.
  - intros a r.
    rewrite (generate_recommendations_closed _ _ _ _ a r Hv),
      (generate_recommendations_closed _ _ _ _ a r Hv').
    rewrite get_insert_ne by (by destruct k).
    destruct k; cbn [vital normal_num] in *.
    + by rewrite Ah.
    + by rewrite Ab.
    + by rewrite At.
Qed.

Lemma nan_vital_costs_points_without_advice_witness :
  calculate_health_score (<["temperature" := flt nan]> row_normal) = Ok 80 ∧
  calculate_health_score
    (<["temperature" := flt 36.6]> (<["temperature" := flt nan]> row_normal))
  = Ok 100 ∧
  generate_recommendations (<["temperature" := flt nan]> row_normal)
    "Normal" "Low Risk"
  = generate_recommendations
      (<["temperature" := flt 36.6]> (<["temperature" := flt nan]> row_normal))
      "Normal" "Low Risk".
Proof.
  destruct (nan_vital_costs_points_without_advice
              (<["temperature" := flt nan]> row_normal)
              (NInt 75) (NInt 98) (NFloat nan) Temperature)
    as (s & s' & _ & _ & _ & _ & Hr); [repeat split; reflexivity | reflexivity |].
  split; [reflexivity|]. split; [reflexivity|].
  exact (Hr "Normal" "Low Risk").
Defined.

(** ** The score falls with every step of worsening *)

Lemma in_score_band_not_nan (b : band) (k : channel) (v : num) :
  in_score_band b k v = true → num_nan v = false.
Proof.
  destruct (num_nan v) eqn:Hn; [|done]. intros Hb. exfalso. revert Hb.
  destruct b, k; cbn [in_score_band in_band]; nan_case v Hn.
Qed.

Lemma in_score_band_deduction (b : band) (k : channel) (v : num) :
  in_score_band b k v = true → channel_deduction k v = band_deduction k b.
Proof.
  intros Hb. pose proof (in_score_band_not_nan _ _ _ Hb) as Hn.
  destruct k; cbn [channel_deduction].
  - hr_bounds v. hr_ordered v Hn. unfold hr_deduction.
    destruct b; cbn [in_score_band in_band band_deduction] in *; order_cases v.
  - pose proof (spo2_90_95 v). spo2_ordered v Hn. unfold spo2_deduction.
    destruct b; cbn [in_score_band in_band band_deduction] in *; order_cases v.
  - temp_score_bounds v. temp_score_ordered v Hn. unfold temp_deduction.
    destruct b; cbn [in_score_band in_band band_deduction] in *; order_cases v.
Qed.

(** Moving one channel from its normal band to its moderate band, or from
    its moderate band to its severe band, lowers the score by the
    difference of the two deductions: 10, 15 or 10 for the first step and
    15, 15 or 10 for the second.  Nothing is lost to the clamp. *)
Theorem score_drops_with_each_band row hr bo t (k : channel) (v' : num)
    (b b' : band) :
  has_vitals row hr bo t →
  in_score_band b k (vital k hr bo t) = true →
  in_score_band b' k v' = true →
  worsens b b' →
  ∃ s s',
    calculate_health_score row = Ok s ∧
    calculate_health_score (<[field k := PyNum v']> row) = Ok s' ∧
    s - s' = band_deduction k b' - band_deduction k b ∧ 10 ≤ s - s' ≤ 15.
Proof.
  intros Hv Hb Hb' Hw.
  pose proof (has_vitals_insert _ _ _ _ k v' Hv) as Hv'.
  apply in_score_band_deduction in Hb, Hb'.
  pose proof (hr_deduction_range hr). pose proof (spo2_deduction_range bo).
  pose proof (temp_deduction_range t).
  pose proof (hr_deduction_range v'). pose proof (spo2_deduction_range v').
  pose proof (temp_deduction_range v').
  eexists _, _.
  split; [apply (calculate_health_score_numeric _ _ _ _ Hv)|].
  split; [apply (calculate_health_score_numeric _ _ _ _ Hv')|].
  unfold clamp.
  destruct Hw, k; cbn [vital channel_deduction band_deduction] in *; lia.
Qed.

Lemma score_drops_with_each_band_witness :
  ∃ s s',
    calculate_health_score row_mild = Ok s ∧
    calculate_health_score (<["temperature" := flt 38.4]> row_mild) = Ok s' ∧
    s - s' = band_deduction Temperature Severe - band_deduction Temperature Moderate ∧
    10 ≤ s - s' ≤ 15.
Proof.
  apply (score_drops_with_each_band row_mild (NInt 55) (NInt 92) (NFloat 37.6)
           Temperature (NFloat 38.4) Moderate Severe);
    [repeat split; reflexivity | reflexivity | reflexivity | constructor].
Defined.

(** ** Advice and score side by side *)

Lemma temp_360_361 (v : num) :
  num_le v (NFloat 36.0) = true → num_lt v (NFloat 36.1) = true.
Proof. by eapply float_bounds_mono. Qed.

Lemma temp_355_360 (v : num) :
  num_le v (NFloat 35.5) = true → num_lt v (NFloat 36.0) = true.
Proof. by eapply float_bounds_mono. Qed.

Lemma hr_advice_nil (hr : num) :
  num_nan hr = false →
  hr_advice hr = [] ↔ in_cc (NInt 60) (NInt 100) hr = true.
Proof.
  intros Hh. ordered hr Hh (NInt 60). ordered hr Hh (NInt 100).
  unfold hr_advice. order_cases hr.
Qed.

Lemma spo2_advice_nil (bo : num) :
  num_nan bo = false →
  spo2_advice bo = [] ↔ num_le (NInt 95) bo = true.
Proof.
  intros Hb. ordered bo Hb (NInt 95). unfold spo2_advice.
  order_cases bo; repeat case_match; done.
Qed.

Lemma temp_advice_nil (t : num) :
  num_nan t = false →
  temp_advice t = [] ↔ in_cc (NFloat 36.0) (NFloat 37.5) t = true.
Proof.
  intros Ht. ordered t Ht (NFloat 36.0). ordered t Ht (NFloat 37.5).
  unfold temp_advice. order_cases t; repeat case_match; done.
Qed.

(** With status Normal and level Low Risk the result is the pair of Low
    risk entries, and nothing else, exactly for the records with heart
    rate in [60, 100], blood oxygen at least 95, temperature in
    [36.0, 37.5] and an activity level other than low. *)
Theorem only_low_risk_entries_iff row hr bo t :
  has_vitals row hr bo t →
  num_nan hr = false → num_nan bo = false → num_nan t = false →
  generate_recommendations row "Normal" "Low Risk"
    = Ok [msg_risk_low; msg_risk_low_tip] ↔
  in_cc (NInt 60) (NInt 100) hr = true ∧
  num_le (NInt 95) bo = true ∧
  in_cc (NFloat 36.0) (NFloat 37.5) t = true ∧
  py_eq (get row "activity_level" (PyStr "moderate")) (PyStr "low") = false.
Proof.
  intros Hv Hh Hb Ht.
  rewrite (generate_recommendations_closed _ _ _ _ _ _ Hv).
  rewrite <- (hr_advice_nil hr Hh), <- (spo2_advice_nil bo Hb),
    <- (temp_advice_nil t Ht).
  set (act := get row "activity_level" (PyStr "moderate")).
  unfold activity_advice. change (risk_advice "Low Risk") with [msg_risk_low; msg_risk_low_tip].
  change (anomaly_advice "Normal") with (@nil string).
  cbn [existsb String.eqb]. rewrite andb_false_r.
  split.
  - intros [= H]. apply (f_equal length) in H.
    rewrite !length_app in H. cbn [length] in H.
    destruct (hr_advice hr); [|cbn [length] in H; lia].
    destruct (spo2_advice bo); [|cbn [length] in H; lia].
    destruct (temp_advice t); [|cbn [length] in H; lia].
    destruct (py_eq act (PyStr "low")); [cbn [length] in H; lia|done].
  - intros (-> & -> & -> & ->). reflexivity.
Qed.

Lemma only_low_risk_entries_iff_witness :
  generate_recommendations row_normal "Normal" "Low Risk"
    = Ok [msg_risk_low; msg_risk_low_tip] ↔
  in_cc (NInt 60) (NInt 100) (NInt 75) = true ∧
  num_le (NInt 95) (NInt 98) = true ∧
  in_cc (NFloat 36.0) (NFloat 37.5) (NFloat 36.6) = true ∧
  py_eq (get row_normal "activity_level" (PyStr "moderate")) (PyStr "low") = false.
Proof.
  apply (only_low_risk_entries_iff row_normal); repeat split; reflexivity.
Defined.

Lemma num_le_not_nan (a v : num) : num_le a v = true → num_nan v = false.
Proof.
  destruct (num_nan v) eqn:Hn; [|done]. unfold num_le.
  by rewrite (num_compare_nan_r a v Hn).
Qed.

Lemma num_lt_not_nan (a v : num) : num_lt a v = true → num_nan v = false.
Proof.
  destruct (num_nan v) eqn:Hn; [|done]. unfold num_lt.
  by rewrite (num_compare_nan_r a v Hn).
Qed.

Lemma num_lt_not_nan_l (v a : num) : num_lt v a = true → num_nan v = false.
Proof.
  destruct (num_nan v) eqn:Hn; [|done]. unfold num_lt.
  by rewrite (num_compare_nan_l v a Hn).
Qed.

Lemma num_gt_not_nan_l (v a : num) : num_gt v a = true → num_nan v = false.
Proof.
  destruct (num_nan v) eqn:Hn; [|done]. unfold num_gt.
  by rewrite (num_compare_nan_l v a Hn).
Qed.

(** Points can go without a word of advice.  A temperature in
    [36.0, 36.1) or in (37.2, 37.5], with heart rate and blood oxygen
    normal, costs 10 points, yet the label is Low and the recommendations
    are the two Low risk entries. *)
Theorem deduction_without_advice row hr bo t :
  has_vitals row hr bo t →
  in_cc (NInt 60) (NInt 100) hr = true →
  num_le (NInt 95) bo = true →
  in_co (NFloat 36.0) (NFloat 36.1) t = true
    ∨ in_oc (NFloat 37.2) (NFloat 37.5) t = true →
  py_eq (get row "activity_level" (PyStr "moderate")) (PyStr "low") = false →
  calculate_health_score row = Ok 90 ∧
  create_risk_labels [row] = Ok [0] ∧
  generate_recommendations row "Normal" "Low Risk"
    = Ok [msg_risk_low; msg_risk_low_tip].
Proof.
  intros Hv Hhr Hbo Ht Hact.
  assert (Hnh : num_nan hr = false).
  { unfold in_cc in Hhr. apply andb_true_iff in Hhr as [H _].
    by apply num_le_not_nan in H. }
  assert (Hnb : num_nan bo = false) by (by apply num_le_not_nan in Hbo).
  assert (Hnt : num_nan t = false).
  { unfold in_co, in_oc in Ht.
    destruct Ht as [H|H]; apply andb_true_iff in H as [H _];
      [by apply num_le_not_nan in H | by apply num_lt_not_nan in H]. }
  assert (Dh : hr_deduction hr = 0 ∧ hr_risk hr = 0 ∧ hr_advice hr = []).
  { hr_bounds hr. hr_ordered hr Hnh.
    unfold hr_deduction, hr_risk, hr_advice. order_cases hr. }
  assert (Db : spo2_deduction bo = 0 ∧ spo2_risk bo = 0 ∧ spo2_advice bo = []).
  { pose proof (spo2_90_95 bo). spo2_ordered bo Hnb.
    unfold spo2_deduction, spo2_risk, spo2_advice. order_cases bo. }
  assert (Dt : temp_deduction t = 10 ∧ temp_risk t ≤ 1 ∧ temp_advice t = []).
  { temp_score_bounds t. temp_risk_bounds t.
    pose proof (temp_372_375 t). pose proof (temp_360_361 t).
    pose proof (temp_355_360 t).
    temp_score_ordered t Hnt. ordered t Hnt (NFloat 37.5).
    ordered t Hnt (NFloat 36.0).
    unfold temp_deduction, temp_risk, temp_advice.
    destruct Ht; order_cases t. }
  destruct Dh as (Dh & Rh & Ah), Db as (Db & Rb & Ab), Dt as (Dt & Rt & At).
  rewrite (calculate_health_score_numeric _ _ _ _ Hv),
    (create_risk_labels_single _ _ _ _ Hv),
    (generate_recommendations_closed _ _ _ _ _ _ Hv).
  rewrite Dh, Db, Dt, Rh, Rb, Ah, Ab, At. unfold activity_advice. rewrite Hact.
  split; [done|].
  split; [|by destruct (py_eq _ (PyStr "high"))].
  pose proof (temp_deduction_range t).
  assert (0 ≤ temp_risk t) by (unfold temp_risk; repeat case_match; lia).
  unfold risk_label. repeat f_equal. 
  destruct (Z.leb_spec 4 (0 + 0 + temp_risk t)); [lia|].
  destruct (Z.leb_spec 2 (0 + 0 + temp_risk t)); [lia|done].
Qed.

Lemma deduction_without_advice_witness :
  calculate_health_score (<["temperature" := flt 37.4]> row_normal) = Ok 90 ∧
  create_risk_labels [<["temperature" := flt 37.4]> row_normal] = Ok [0] ∧
  generate_recommendations (<["temperature" := flt 37.4]> row_normal)
    "Normal" "Low Risk"
    = Ok [msg_risk_low; msg_risk_low_tip].
Proof.
  apply (deduction_without_advice _ (NInt 75) (NInt 98) (NFloat 37.4));
    [repeat split; reflexivity | reflexivity | reflexivity
    | right; reflexivity | reflexivity].
Defined.

(** A membership among entries that are different strings. *)
Ltac absurd_member H :=
  exfalso; apply list_elem_of_In in H; vm_compute in H; intuition discriminate.

Lemma spo2_critical_source hr bo t act r a :
  msg_spo2_critical ∈ hr_advice hr ++ spo2_advice bo ++ temp_advice t
                      ++ activity_advice act r ++ risk_advice r ++ anomaly_advice a →
  num_lt bo (NInt 90) = true.
Proof.
  rewrite !elem_of_app. intros [H|[H|[H|[H|[H|H]]]]].
  - unfold hr_advice in H. repeat case_match; absurd_member H.
  - unfold spo2_advice in H. repeat case_match; try done; absurd_member H.
  - unfold temp_advice in H. repeat case_match; absurd_member H.
  - unfold activity_advice in H. repeat case_match; absurd_member H.
  - unfold risk_advice in H. repeat case_match; absurd_member H.
  - unfold anomaly_advice in H. repeat case_match; absurd_member H.
Qed.

Lemma temp_fever_source hr bo t act r a :
  msg_temp_fever ∈ hr_advice hr ++ spo2_advice bo ++ temp_advice t
                   ++ activity_advice act r ++ risk_advice r ++ anomaly_advice a →
  num_gt t (NFloat 38.0) = true.
Proof.
  rewrite !elem_of_app. intros [H|[H|[H|[H|[H|H]]]]].
  - unfold hr_advice in H. repeat case_match; absurd_member H.
  - unfold spo2_advice in H. repeat case_match; absurd_member H.
  - unfold temp_advice in H. repeat case_match; try done; absurd_member H.
  - unfold activity_advice in H. repeat case_match; absurd_member H.
  - unfold risk_advice in H. repeat case_match; absurd_member H.
  - unfold anomaly_advice in H. repeat case_match; absurd_member H.
Qed.

Lemma risk_nonneg (hr bo t : num) :
  0 ≤ hr_risk hr ∧ 0 ≤ spo2_risk bo ∧ 0 ≤ temp_risk t.
Proof. unfold hr_risk, spo2_risk, temp_risk. repeat split; repeat case_match; lia. Qed.

(** An urgent entry about a vital sign is backed by the other two
    functions: when the critical oxygen entry or the fever entry is in
    the result, the score is at most 80 and the label is Medium or High. *)
Theorem urgent_vital_entry_is_backed row hr bo t a r l :
  has_vitals row hr bo t →
  generate_recommendations row a r = Ok l →
  msg_spo2_critical ∈ l ∨ msg_temp_fever ∈ l →
  ∃ s lab, calculate_health_score row = Ok s ∧ s ≤ 80 ∧
           create_risk_labels [row] = Ok [lab] ∧ 1 ≤ lab.
Proof.
  intros Hv Hl Hin.
  rewrite (generate_recommendations_closed _ _ _ _ _ _ Hv) in Hl.
  injection Hl as <-.
  pose proof (hr_deduction_range hr). pose proof (spo2_deduction_range bo).
  pose proof (temp_deduction_range t).
  pose proof (risk_nonneg hr bo t) as (? & ? & ?).
  assert ((spo2_deduction bo = 30 ∧ spo2_risk bo = 2)
          ∨ (temp_deduction t = 20 ∧ temp_risk t = 2)) as Hsev.
  { destruct Hin as [Hin|Hin].
    - left. apply spo2_critical_source in Hin.
      pose proof (num_lt_not_nan_l _ _ Hin) as Hn.
      pose proof (spo2_90_95 bo). spo2_ordered bo Hn.
      unfold spo2_deduction, spo2_risk. order_cases bo.
    - right. apply temp_fever_source in Hin.
      pose proof (num_gt_not_nan_l _ _ Hin) as Hn.
      temp_score_bounds t. temp_score_ordered t Hn.
      unfold temp_deduction, temp_risk. order_cases t. }
  eexists _, _.
  split; [apply (calculate_health_score_numeric _ _ _ _ Hv)|].
  split; [unfold clamp; lia|].
  split; [apply (create_risk_labels_single _ _ _ _ Hv)|].
  unfold risk_label. repeat case_match; lia.
Qed.

Lemma urgent_vital_entry_is_backed_witness :
  ∃ s lab, calculate_health_score row_severe = Ok s ∧ s ≤ 80 ∧
           create_risk_labels [row_severe] = Ok [lab] ∧ 1 ≤ lab.
Proof.
  apply (urgent_vital_entry_is_backed row_severe (NInt 45) (NInt 88) (NFloat 39.0)
           "Anomaly" "High Risk" _ ltac:(repeat split; reflexivity) eq_refl).
  left. set_solver.
Defined.

(** ** Labels and counts *)

Lemma py_sum_ones {A} (l : list A) :
  py_sum (map (λ _, 1) l) = Z.of_nat (length l).
Proof.
  unfold py_sum. rewrite <- (Z.add_0_l (Z.of_nat (length l))).
  generalize 0. induction l as [|x l IH]; intros acc; cbn [map fold_left length].
  - lia.
  - rewrite IH. lia.
Qed.

(** The count of anomalies the endpoints report is the number of
    predictions equal to -1; it lies between 0 and the number of records,
    and there is one label per prediction. *)
Theorem num_anomalies_counts_minus_one (predictions : list Z) :
  num_anomalies (get_anomaly_labels predictions)
    = Z.of_nat (length (filter (λ p, p = -1) predictions)) ∧
  0 ≤ num_anomalies (get_anomaly_labels predictions)
    ≤ Z.of_nat (length predictions) ∧
  length (get_anomaly_labels predictions) = length predictions.
Proof.
  assert (H : num_anomalies (get_anomaly_labels predictions)
              = Z.of_nat (length (filter (λ p, p = -1) predictions))).
  { unfold num_anomalies, get_anomaly_labels. rewrite py_sum_ones. f_equal.
    induction predictions as [|p ps IH]; [done|].
    cbn [map]. rewrite !filter_cons.
    destruct (Z.eqb_spec p (-1)) as [->|Hne].
    - rewrite decide_True by done. rewrite decide_True by done.
      cbn [length]. by rewrite IH.
    - rewrite decide_False by done. by rewrite decide_False by done. }
  split; [exact H|]. split.
  - rewrite H. pose proof (length_filter (λ p, p = -1) predictions). lia.
  - unfold get_anomaly_labels. by rewrite length_map.
Qed.

(** A data frame that is labelled: every label comes from the risk score
    of its row. *)
Lemma create_risk_labels_Ok (df : list (gmap string pyval)) (labels : list Z) :
  create_risk_labels df = Ok labels →
  Forall2 (λ row l, ∃ s, row_risk_score row = Ok s ∧ l = risk_label s) df labels.
Proof.
  unfold create_risk_labels. revert labels.
  induction df as [|row df IH]; intros labels H.
  - injection H as <-. constructor.
  - cbn [mapM] in H. unfold mbind, res_bind, mret, res_ret in *.
    apply bind_Ok in H as (l & Hl & H).
    apply bind_Ok in H as (ls & Hls & H). injection H as <-.
    unfold row_risk_label in Hl. apply bind_Ok in Hl as (s & Hs & [= <-]).
    constructor; [eauto | by apply IH].
Qed.

Lemma risk_label_cases (s : Z) :
  risk_label s = 0 ∨ risk_label s = 1 ∨ risk_label s = 2.
Proof. unfold risk_label. repeat case_match; auto. Qed.

(** Every label [create_risk_labels] produces is 0, 1 or 2, so looking
    the labels up in [risk_levels] never raises IndexError and gives one
    of the three names for every row. *)
Theorem labels_index_risk_levels (df : list (gmap string pyval)) (labels : list Z) :
  create_risk_labels df = Ok labels →
  length labels = length df ∧
  Forall (λ l, l = 0 ∨ l = 1 ∨ l = 2) labels ∧
  ∃ names, risk_names labels = Some names ∧
           length names = length df ∧
           Forall (λ n, n ∈ risk_levels) names.
Proof.
  intros H. apply create_risk_labels_Ok in H.
  induction H as [|row l df labels (s & _ & ->) _ (IHl & IHf & names & IHn & IHk & IHm)].
  - repeat split; [constructor|]. exists []. repeat split; constructor.
  - split; [cbn; lia|]. split; [constructor; [apply risk_label_cases | done]|].
    unfold risk_names in *. cbn [mapM]. rewrite IHn.
    destruct (risk_label_cases s) as [->|[->| ->]]; cbn;
      eexists; (split; [reflexivity|]); (split; [cbn; lia|]);
      constructor; try done; set_solver.
Qed.

Lemma labels_index_risk_levels_witness :
  length [1; 2] = length [row_mild; row_severe] ∧
  Forall (λ l, l = 0 ∨ l = 1 ∨ l = 2) [1; 2] ∧
  ∃ names, risk_names [1; 2] = Some names ∧
           length names = length [row_mild; row_severe] ∧
           Forall (λ n, n ∈ risk_levels) names.
Proof.
  exact (labels_index_risk_levels [row_mild; row_severe] [1; 2] eq_refl).
Defined.

(** Indices outside 0, 1, 2: Python counts negative ones from the end
    and raises for the rest. *)
Example risk_names_edge :
  risk_names [0; 1; 2] = Some ["Low Risk"; "Medium Risk"; "High Risk"] ∧
  risk_names [-1] = Some ["High Risk"] ∧
  risk_names [3] = None ∧ risk_names [-4] = None.
Proof. repeat split; reflexivity. Qed.

(** ** Whole data frames *)

Lemma row_numeric_vitals row :
  row_numeric row = true ↔ ∃ hr bo t, has_vitals row hr bo t.
Proof.
  unfold row_numeric, has_vitals. split.
  - intros H. apply andb_true_iff in H as [H Ht]. apply andb_true_iff in H as [Hh Hb].
    destruct (row !! "heart_rate") as [[hr| |]|]; try done.
    destruct (row !! "blood_oxygen") as [[bo| |]|]; try done.
    destruct (row !! "temperature") as [[t| |]|]; try done.
    by exists hr, bo, t.
  - by intros (hr & bo & t & -> & -> & ->).
Qed.

Lemma row_not_numeric row :
  row_numeric row = false → ∃ k : channel, numeric (row !! field k) = false.
Proof.
  unfold row_numeric. intros H.
  apply andb_false_iff in H as [H|H]; [apply andb_false_iff in H as [H|H]|].
  - by exists HeartRate.
  - by exists BloodOxygen.
  - by exists Temperature.
Qed.

Lemma mapM_res_is_ok {A B} (f : A → res B) (l : list A) :
  is_ok (mapM f l) = true ↔ Forall (λ x, is_ok (f x) = true) l.
Proof.
  induction l as [|x l IH]; cbn [mapM].
  - split; [constructor | done].
  - unfold mbind, res_bind, mret, res_ret in *. rewrite Forall_cons, <- IH.
    destruct (f x); cbn; [|by intuition].
    destruct (mapM f l); cbn; by intuition.
Qed.

Lemma mapM_res_length {A B} (f : A → res B) (l : list A) (k : list B) :
  mapM f l = Ok k → length k = length l.
Proof.
  revert k. induction l as [|x l IH]; intros k H; cbn [mapM] in H.
  - by injection H as <-.
  - unfold mbind, res_bind, mret, res_ret in *.
    apply bind_Ok in H as (y & _ & H). apply bind_Ok in H as (ys & Hys & H).
    injection H as <-. cbn. by rewrite (IH ys).
Qed.

(** The score column and the risk labels are all or nothing, and on the
    same data frames: both are returned exactly when every row holds a
    number in each of the three vital columns, with one entry per row;
    a single bad row makes both calls raise. *)
Theorem scores_and_labels_all_or_nothing (df : list (gmap string pyval)) :
  (is_ok (health_scores df) = true ↔ Forall (λ row, row_numeric row = true) df) ∧
  (is_ok (create_risk_labels df) = true
   ↔ Forall (λ row, row_numeric row = true) df) ∧
  (∀ scores, health_scores df = Ok scores → length scores = length df) ∧
  (∀ labels, create_risk_labels df = Ok labels → length labels = length df).
Proof.
  assert (Hs : ∀ row, is_ok (calculate_health_score row) = true
                      ↔ row_numeric row = true).
  { intros row. destruct (row_numeric row) eqn:Hn.
    - apply row_numeric_vitals in Hn as (hr & bo & t & Hv).
      by rewrite (calculate_health_score_numeric _ _ _ _ Hv).
    - apply row_not_numeric in Hn as (k & Hk).
      by rewrite (calculate_health_score_raises row k Hk). }
  assert (Hl : ∀ row, is_ok (row_risk_label row) = true ↔ row_numeric row = true).
  { intros row. destruct (row_numeric row) eqn:Hn.
    - apply row_numeric_vitals in Hn as (hr & bo & t & Hv).
      by rewrite (row_risk_label_numeric _ _ _ _ Hv).
    - apply row_not_numeric in Hn as (k & Hk). unfold row_risk_label.
      by rewrite (is_ok_bind_l _ _ (row_risk_score_raises row k Hk)). }
  unfold health_scores, create_risk_labels.
  split; [|split; [|split]].
  - rewrite mapM_res_is_ok. apply Forall_iff. intros row. apply Hs.
  - rewrite mapM_res_is_ok. apply Forall_iff. intros row. apply Hl.
  - apply mapM_res_length.
  - apply mapM_res_length.
Qed.

(** One row without a number spoils the frame. *)
Example one_bad_row :
  health_scores [row_normal; row_hr_none; row_mild] = Raise TypeError ∧
  create_risk_labels [row_normal; row_hr_none; row_mild] = Raise TypeError ∧
  health_scores [row_normal; row_mild] = Ok [100; 65] ∧
  create_risk_labels [row_normal; row_mild] = Ok [0; 1] ∧
  health_scores [] = Ok [] ∧ create_risk_labels [] = Ok [].
Proof. repeat split; reflexivity. Qed.

Lemma scores_and_labels_all_or_nothing_witness :
  is_ok (health_scores [row_normal; row_mild]) = true ∧
  is_ok (create_risk_labels [row_normal; row_mild]) = true ∧
  length [100; 65] = length [row_normal; row_mild].
Proof.
  destruct (scores_and_labels_all_or_nothing [row_normal; row_mild])
    as (Hs & Hl & Hn & _).
  assert (Hf : Forall (λ row, row_numeric row = true) [row_normal; row_mild])
    by (repeat constructor).
  split; [by apply Hs|]. split; [by apply Hl|].
  exact (Hn [100; 65] eq_refl).
Defined.

(** ** The record of the realtime endpoint *)

Lemma realtime_record_lookup data now :
  realtime_record data now !! "heart_rate" = Some (get data "heart_rate" PyNone) ∧
  realtime_record data now !! "blood_oxygen"
    = Some (get data "blood_oxygen" PyNone) ∧
  realtime_record data now !! "temperature" = Some (get data "temperature" PyNone) ∧
  realtime_record data now !! "activity_level"
    = Some (get data "activity_level" (PyStr "moderate")).
Proof. repeat split; reflexivity. Qed.

(** analyze_realtime_data copies each vital of the request into the
    record, as None when the request lacks it.  The defaults of
    [generate_recommendations] therefore never apply to that record: a
    request with three numbers gets the recommendations of the request
    itself, and any other request makes the call raise TypeError. *)
Theorem realtime_record_has_every_vital (data : gmap string pyval) (now : pyval)
    (a r : string) :
  (∀ k : channel, is_Some (realtime_record data now !! field k)) ∧
  (row_numeric data = true →
   generate_recommendations (realtime_record data now) a r
   = generate_recommendations data a r ∧
   is_ok (generate_recommendations data a r) = true) ∧
  (row_numeric data = false →
   generate_recommendations (realtime_record data now) a r = Raise TypeError).
Proof.
  pose proof (realtime_record_lookup data now) as (Lh & Lb & Lt & La).
  split; [|split].
  - intros []; cbn [field]; eauto.
  - intros Hn. apply row_numeric_vitals in Hn as (hr & bo & t & Hv).
    assert (Hv' : has_vitals (realtime_record data now) hr bo t).
    { destruct Hv as (Hh & Hb & Ht). unfold has_vitals, get in *.
      rewrite Lh, Lb, Lt, Hh, Hb, Ht. done. }
    split; [|by apply (generate_recommendations_numeric data hr bo t)].
    rewrite (generate_recommendations_closed _ _ _ _ a r Hv),
      (generate_recommendations_closed _ _ _ _ a r Hv').
    unfold get at 1. by rewrite La.
  - intros Hn. apply row_not_numeric in Hn as (k & Hk).
    apply (generate_recommendations_type_error _ k
             (default PyNone (data !! field k))).
    + destruct k; cbn [field]; [exact Lh | exact Lb | exact Lt].
    + by destruct (data !! field k) as [[]|].
Qed.

Lemma realtime_record_has_every_vital_witness :
  generate_recommendations (realtime_record row_normal PyNone) "Normal" "Low Risk"
    = generate_recommendations row_normal "Normal" "Low Risk" ∧
  generate_recommendations (realtime_record row_empty PyNone) "Normal" "Low Risk"
    = Raise TypeError.
Proof.
  destruct (realtime_record_has_every_vital row_normal PyNone "Normal" "Low Risk")
    as (_ & Hn & _).
  destruct (realtime_record_has_every_vital row_empty PyNone "Normal" "Low Risk")
    as (_ & _ & He).
  split; [exact (proj1 (Hn eq_refl)) | exact (He eq_refl)].
Defined.

(** ** The configuration *)

Import Config.

Lemma get_config_cases environ env :
  get_config environ env
  = Some (if String.eqb env "production" then ProductionConfig environ
          else if String.eqb env "testing" then TestingConfig environ
          else DevelopmentConfig environ).
Proof.
  unfold get_config, config. cbn [list_to_map foldr].
  destruct (String.eqb_spec env "production") as [->|Hp]; [reflexivity|].
  destruct (String.eqb_spec env "testing") as [->|Ht]; [reflexivity|].
  destruct (decide (env = "development")) as [->|Hd]; [reflexivity|].
  destruct (decide (env = "default")) as [->|Hf]; [reflexivity|].
  by simplify_map_eq.
Qed.

(** [get_config] never fails, and only the exact names count: anything
    but "production" and "testing", a misspelled name included, gives the
    development configuration.  DEBUG is off for "production" alone and
    TESTING is on for "testing" alone. *)
Theorem get_config_debug_unless_production (environ : gmap string string)
    (env : string) :
  ∃ cls, get_config environ env = Some cls ∧
         getattr cls "DEBUG" = Some (CBool (negb (String.eqb env "production"))) ∧
         getattr cls "TESTING" = Some (CBool (String.eqb env "testing")) ∧
         (env ≠ "production" → env ≠ "testing" →
          cls = DevelopmentConfig environ).
Proof.
  eexists. split; [apply get_config_cases|].
  destruct (String.eqb_spec env "production") as [->|Hp]; [by repeat split|].
  destruct (String.eqb_spec env "testing") as [->|Ht]; by repeat split.
Qed.

Lemma get_config_debug_unless_production_witness :
  ∃ cls, get_config ∅ "prod" = Some cls ∧
         getattr cls "DEBUG" = Some (CBool true) ∧
         cls = DevelopmentConfig ∅.
Proof.
  destruct (get_config_debug_unless_production ∅ "prod")
    as (cls & Hc & Hd & _ & He).
  exists cls. split; [exact Hc|]. split; [exact Hd|].
  apply He; discriminate.
Defined.

(** The secret key.  Outside production it is never missing or empty: an
    unset or empty SECRET_KEY variable is replaced by the development
    key.  In production it is the variable as it is, None when unset. *)
Theorem secret_key_fallback (environ : gmap string string) (env : string) :
  ∃ cls, get_config environ env = Some cls ∧
    if String.eqb env "production"
    then getattr cls "SECRET_KEY"
         = Some (match environ !! "SECRET_KEY" with
                 | Some s => CStr s
                 | None => CNone
                 end)
    else ∃ s, getattr cls "SECRET_KEY" = Some (CStr s) ∧ s ≠ "" ∧
              (environ !! "SECRET_KEY" = None ∨ environ !! "SECRET_KEY" = Some ""
               → s = "dev-secret-key-change-in-production").
Proof.
  eexists. split; [apply get_config_cases|].
  destruct (String.eqb_spec env "production") as [->|Hp]; [reflexivity|].
  assert (∃ s, py_or_else (environ_secret environ)
                 (CStr "dev-secret-key-change-in-production") = CStr s ∧ s ≠ "" ∧
               (environ !! "SECRET_KEY" = None ∨ environ !! "SECRET_KEY" = Some ""
                → s = "dev-secret-key-change-in-production")) as Hs.
  { unfold environ_secret. destruct (environ !! "SECRET_KEY") as [s|].
    - destruct s as [|c s]; cbn.
      + by eexists.
      + eexists. repeat split; [done|]. by intros [|].
    - cbn. by eexists. }
  destruct Hs as (s & Hs & Hne & Hd). exists s.
  destruct (String.eqb_spec env "testing") as [->|Ht];
    (split; [|done]); cbn; by rewrite <- Hs.
Qed.

Lemma secret_key_fallback_witness :
  ∃ cls s, get_config {["SECRET_KEY" := ""]} "testing" = Some cls ∧
           getattr cls "SECRET_KEY" = Some (CStr s) ∧
           s = "dev-secret-key-change-in-production".
Proof.
  destruct (secret_key_fallback {["SECRET_KEY" := ""]} "testing")
    as (cls & Hc & s & Hs & _ & Hd).
  exists cls, s. split; [exact Hc|]. split; [exact Hs|].
  apply Hd. right. reflexivity.
Defined.

Lemma hr_deduction_ranges (v : num) :
  num_nan v = false →
  (hr_deduction v = 0 ↔ num_le (NInt 60) v && num_le v (NInt 100) = true) ∧
  (hr_deduction v = 25 ↔ num_le (NInt 50) v && num_le v (NInt 120) = false).
Proof.
  intros Hn. hr_bounds v. hr_ordered v Hn.
  unfold hr_deduction. split; order_cases v.
Qed.

Lemma temp_deduction_ranges (v : num) :
  num_nan v = false →
  (temp_deduction v = 0
   ↔ num_le (NFloat 36.1) v && num_le v (NFloat 37.2) = true) ∧
  (temp_deduction v = 20
   ↔ num_le (NFloat 35.5) v && num_le v (NFloat 38.0) = false).
Proof.
  intros Hn. temp_score_bounds v. temp_score_ordered v Hn.
  unfold temp_deduction. split; order_cases v.
Qed.

Lemma spo2_deduction_ranges (v : num) :
  num_nan v = false →
  (spo2_deduction v = 0 ↔ num_le (NInt 95) v = true) ∧
  (spo2_deduction v = 30 ↔ num_le (NInt 90) v = false).
Proof.
  intros Hn. pose proof (spo2_90_95 v). spo2_ordered v Hn.
  unfold spo2_deduction. split; order_cases v.
Qed.

(** The ranges of the configuration are the ones the score applies, for
    every environment name: no deduction for a heart rate or temperature
    exactly when it is within its NORMAL range, the largest deduction
    exactly when it is outside its WARNING range.  For blood oxygen only
    the lower ends count: a reading above 100 is outside the NORMAL range
    and still costs nothing. *)
Theorem config_ranges_match_score (environ : gmap string string) (env : string) :
  ∃ cls hn hw bn bw tn tw,
    get_config environ env = Some cls ∧
    getattr cls "HEART_RATE_NORMAL" = Some hn ∧
    getattr cls "HEART_RATE_WARNING" = Some hw ∧
    getattr cls "BLOOD_OXYGEN_NORMAL" = Some bn ∧
    getattr cls "BLOOD_OXYGEN_WARNING" = Some bw ∧
    getattr cls "TEMPERATURE_NORMAL" = Some tn ∧
    getattr cls "TEMPERATURE_WARNING" = Some tw ∧
    (∀ v, num_nan v = false →
          (hr_deduction v = 0 ↔ within hn v = true) ∧
          (hr_deduction v = 25 ↔ within hw v = false) ∧
          (temp_deduction v = 0 ↔ within tn v = true) ∧
          (temp_deduction v = 20 ↔ within tw v = false) ∧
          (spo2_deduction v = 0 ↔ at_least_low bn v = true) ∧
          (spo2_deduction v = 30 ↔ at_least_low bw v = false)) ∧
    within bn (NInt 101) = false ∧ spo2_deduction (NInt 101) = 0.
Proof.
  exists (if String.eqb env "production" then ProductionConfig environ
          else if String.eqb env "testing" then TestingConfig environ
          else DevelopmentConfig environ),
    (CPair (NInt 60) (NInt 100)), (CPair (NInt 50) (NInt 120)),
    (CPair (NInt 95) (NInt 100)), (CPair (NInt 90) (NInt 95)),
    (CPair (NFloat 36.1) (NFloat 37.2)), (CPair (NFloat 35.5) (NFloat 38.0)).
  split; [apply get_config_cases|].
  do 6 (split; [by destruct (String.eqb env "production"),
                     (String.eqb env "testing")|]).
  split; [|split; reflexivity].
  intros v Hn. cbn [within at_least_low].
  pose proof (hr_deduction_ranges v Hn) as (? & ?).
  pose proof (temp_deduction_ranges v Hn) as (? & ?).
  pose proof (spo2_deduction_ranges v Hn) as (? & ?).
  done.
Qed.

Lemma config_ranges_match_score_witness :
  ∃ hn, getattr (DevelopmentConfig ∅) "HEART_RATE_NORMAL" = Some hn ∧
        (hr_deduction (NInt 75) = 0 ↔ within hn (NInt 75) = true).
Proof.
  destruct (config_ranges_match_score ∅ "development")
    as (cls & hn & hw & bn & bw & tn & tw & Hc & Hhn & _ & _ & _ & _ & _ & Hv & _).
  injection Hc as <-. exists hn. split; [exact Hhn|].
  exact (proj1 (Hv (NInt 75) eq_refl)).
Defined.

(** ** The simulator *)

Import Simulator.

Ltac int_blocks :=
  unfold hr_deduction, hr_risk, spo2_deduction, spo2_risk,
    num_le, num_lt, num_gt, num_ge; cbn [num_compare];
  repeat match goal with
         | |- context [(?a ?= ?b)%Z] => destruct (Z.compare_spec a b)
         end; cbn; try lia.

Lemma hr_normal_draw (z : Z) :
  60 ≤ z < 100 → hr_deduction (NInt z) = 0 ∧ hr_risk (NInt z) = 0.
Proof. intros Hz. split; int_blocks. Qed.

Lemma spo2_normal_draw (z : Z) :
  95 ≤ z < 100 → spo2_deduction (NInt z) = 0 ∧ spo2_risk (NInt z) = 0.
Proof. intros Hz. split; int_blocks. Qed.

Lemma hr_anomaly_draw (z : Z) :
  40 ≤ z < 50 ∨ 120 ≤ z < 160 →
  10 ≤ hr_deduction (NInt z) ≤ 25 ∧ 1 ≤ hr_risk (NInt z) ≤ 2.
Proof. intros Hz. repeat split; int_blocks. Qed.

Lemma spo2_anomaly_draw (z : Z) :
  85 ≤ z < 92 →
  15 ≤ spo2_deduction (NInt z) ≤ 30 ∧ 1 ≤ spo2_risk (NInt z) ≤ 2.
Proof. intros Hz. repeat split; int_blocks. Qed.

Lemma temp_any (t : num) :
  0 ≤ temp_deduction t ≤ 20 ∧ 0 ≤ temp_risk t ≤ 2.
Proof. unfold temp_deduction, temp_risk. repeat split; repeat case_match; lia. Qed.

Section SimulatorFacts.

Context {datetime : Type} (plus_5_minutes : datetime → datetime)
  (round1 : float → float).

Lemma loop_lookup uid rng turns i t0 k :
  (k < turns)%nat →
  loop datetime plus_5_minutes round1 uid rng turns i t0 !! k
  = Some (record datetime round1 uid (Nat.iter k plus_5_minutes t0) (rng (i + k)%nat)).
Proof.
  revert i t0 k. induction turns as [|turns IH]; intros i t0 k Hk; [lia|].
  destruct k as [|k]; cbn [loop].
  - by rewrite Nat.add_0_r.
  - cbn [lookup list_lookup]. rewrite IH by lia.
    rewrite Nat.add_succ_r, Nat.iter_succ_r. done.
Qed.

Lemma loop_length uid rng turns i t0 :
  length (loop datetime plus_5_minutes round1 uid rng turns i t0) = turns.
Proof.
  revert i t0. induction turns as [|turns IH]; intros i t0; cbn [loop length];
    [done|]. by rewrite IH.
Qed.

Lemma generate_user_data_lookup rng now uid n start k r :
  generate_user_data datetime plus_5_minutes round1 rng now uid n start !! k = Some r →
  (k < Z.to_nat n)%nat ∧
  r = record datetime round1 uid
        (Nat.iter k plus_5_minutes (default now start)) (rng k).
Proof.
  unfold generate_user_data. intros Hk.
  assert (Hlt : (k < Z.to_nat n)%nat).
  { apply lookup_lt_Some in Hk. by rewrite loop_length in Hk. }
  split; [done|]. rewrite loop_lookup in Hk by done. by injection Hk.
Qed.

(** The frame the simulator returns has [num_records] rows, none when
    [num_records] is zero or negative; row [k] carries the caller's
    [user_id], a time stamp [k] steps of five minutes after the start,
    and readings inside the ranges the draws are taken from: no heart
    rate in [50, 60) or [100, 120), no blood oxygen from 92 to 94. *)
Theorem simulated_frame_shape rng now uid n start :
  let df := generate_user_data datetime plus_5_minutes round1 rng now uid n start in
  length df = Z.to_nat n ∧
  (n ≤ 0 → df = []) ∧
  ∀ k r, df !! k = Some r →
    user_id datetime r = uid ∧
    timestamp datetime r = Nat.iter k plus_5_minutes (default now start) ∧
    (well_drawn (rng k) →
       (40 ≤ heart_rate datetime r < 50 ∨ 60 ≤ heart_rate datetime r < 100 ∨
        120 ≤ heart_rate datetime r < 160) ∧
       (85 ≤ blood_oxygen datetime r < 92 ∨ 95 ≤ blood_oxygen datetime r < 100) ∧
       (12 ≤ respiration_rate datetime r < 20) ∧
       (0 ≤ steps datetime r < 150) ∧
       activity_level datetime r ∈ ["low"; "moderate"; "high"] ∧
       sleep_quality datetime r ∈ ["poor"; "fair"; "good"; "excellent"]).
Proof.
  cbn zeta. split; [apply loop_length|]. split.
  { intros Hn. unfold generate_user_data. by replace (Z.to_nat n) with O by lia. }
  intros k r Hk. apply generate_user_data_lookup in Hk as [_ ->].
  unfold record.
  destruct (is_anomaly (rng k)); cbn; (split; [done|]); (split; [done|]);
    intros (? & ? & ? & ? & ? & ? & ? & ? & ?);
    try destruct (d_hr_first (rng k)); repeat split; try done; lia.
Qed.

(** A record drawn as anomalous scores at most 75 and is labelled Medium
    or High; a record drawn as normal scores at least 80 and is never
    labelled High, whatever its temperature. *)
Theorem simulated_records_match_their_kind rng now uid n start k r row :
  generate_user_data datetime plus_5_minutes round1 rng now uid n start !! k = Some r →
  well_drawn (rng k) →
  has_vitals row (NInt (heart_rate datetime r)) (NInt (blood_oxygen datetime r))
    (NFloat (temperature datetime r)) →
  ∃ s l, calculate_health_score row = Ok s ∧ create_risk_labels [row] = Ok [l] ∧
         if is_anomaly (rng k)
         then 25 ≤ s ≤ 75 ∧ (l = 1 ∨ l = 2)
         else 80 ≤ s ≤ 100 ∧ (l = 0 ∨ l = 1).
Proof.
  intros Hk Hd Hv. apply generate_user_data_lookup in Hk as [_ ->].
  eexists _, _.
  split; [apply (calculate_health_score_numeric _ _ _ _ Hv)|].
  split; [apply (create_risk_labels_single _ _ _ _ Hv)|].
  destruct Hd as (Hl & Hh & Hb & Hhn & Hbn & _).
  unfold record. 
  match goal with |- context [temp_deduction ?t] => pose proof (temp_any t) as Ht end.
  revert Ht. unfold record. destruct (is_anomaly (rng k)); cbn; intros Ht.
  - match goal with |- context [hr_deduction ?h] =>
      assert (Hhr : 10 ≤ hr_deduction h ≤ 25 ∧ 1 ≤ hr_risk h ≤ 2)
        by (apply hr_anomaly_draw; destruct (d_hr_first (rng k)); lia) end.
    pose proof (spo2_anomaly_draw _ Hb).
    unfold risk_label, Spec.clamp. repeat case_match; lia.
  - destruct (hr_normal_draw _ Hhn) as [-> ->], (spo2_normal_draw _ Hbn) as [-> ->].
    unfold risk_label, Spec.clamp. repeat case_match; lia.
Qed.

End SimulatorFacts.

Lemma simulated_records_match_their_kind_witness :
  ∃ s l, calculate_health_score row_mild_anomaly = Ok s ∧
         create_risk_labels [row_mild_anomaly] = Ok [l] ∧
         if is_anomaly draws_mild_anomaly
         then 25 ≤ s ≤ 75 ∧ (l = 1 ∨ l = 2)
         else 80 ≤ s ≤ 100 ∧ (l = 0 ∨ l = 1).
Proof.
  apply (simulated_records_match_their_kind (λ t : Z, t + 5) (λ t, t)
           (λ _, draws_mild_anomaly) 0 (PyStr "user_001") 3 None 1
           (record Z (λ t, t) (PyStr "user_001") 5 draws_mild_anomaly)
           row_mild_anomaly).
  - reflexivity.
  - unfold well_drawn. cbn. repeat split; try lia; compute_done.
  - repeat split; reflexivity.
Defined.

(** ** Fitted state and persistence *)

Section EstimatorFacts.

Import Estimators.

Context `{Libraries}.

Lemma joblib_round_trip (o : obj) (path : string) (fs : disk) :
  writable path = true →
  joblib_dump o path fs = Returns (<[path := ByJoblib o]> fs) ∧
  joblib_load path (<[path := ByJoblib o]> fs) = Returns o.
Proof.
  intros Hw. unfold joblib_dump, joblib_load, disk in *. rewrite Hw.
  by rewrite lookup_insert_eq.
Qed.

Lemma joblib_dump_Returns (o : obj) (path : string) (fs fs' : disk) :
  joblib_dump o path fs = Returns fs' →
  fs' = <[path := ByJoblib o]> fs ∧ joblib_load path fs' = Returns o.
Proof.
  unfold joblib_dump, joblib_load, disk in *.
  destruct (writable path); [|done]. intros [= <-].
  by rewrite lookup_insert_eq.
Qed.

(** [save_model] followed by [load_model] on the same path gives the
    loading object the four attributes of the saved one, whatever they
    hold and whatever the loading object held before; no other file is
    touched. *)
Theorem save_load_round_trip (path : string) (fs : disk)
    (d d0 : detector) (c c0 : classifier) :
  writable path = true →
  (∃ fs', detector_save_model d path fs = Returns fs' ∧
          detector_load_model d0 path fs' = (d, Returns tt) ∧
          ∀ p, p ≠ path → fs' !! p = fs !! p) ∧
  (∃ fs', classifier_save_model c path fs = Returns fs' ∧
          classifier_load_model c0 path fs' = (c, Returns tt) ∧
          ∀ p, p ≠ path → fs' !! p = fs !! p).
Proof.
  intros Hw. split.
  - destruct (joblib_round_trip
      (Dict (list_to_map [("model", model d); ("is_fitted", is_fitted d);
                          ("feature_importance", feature_importance d);
                          ("contamination", contamination d)])) path fs Hw)
      as [Hd Hl].
    eexists. split; [exact Hd|]. split.
    + unfold detector_load_model. rewrite Hl. cbn. by destruct d.
    + intros p Hp. unfold disk in *. by rewrite lookup_insert_ne.
  - destruct (joblib_round_trip
      (Dict (list_to_map [("model", c_model c); ("is_fitted", c_is_fitted c);
                          ("feature_names", feature_names c);
                          ("risk_levels", risk_levels c)])) path fs Hw)
      as [Hd Hl].
    eexists. split; [exact Hd|]. split.
    + unfold classifier_load_model. rewrite Hl. cbn. by destruct c.
    + intros p Hp. unfold disk in *. by rewrite lookup_insert_ne.
Qed.

(** [load_model] assigns attribute by attribute.  Given the file of the
    other class, it raises KeyError at the third key, after [model] and
    [is_fitted] have been replaced: the detector then answers [predict]
    as the saved classifier would.  On a path without a file it raises
    FileNotFoundError and changes nothing. *)
Theorem load_model_is_not_atomic (path : string) (fs fs1 fs2 : disk)
    (d d0 : detector) (c c0 : classifier) :
  classifier_save_model c path fs = Returns fs1 →
  detector_save_model d path fs = Returns fs2 →
  let d' := {| model := c_model c; is_fitted := c_is_fitted c;
               feature_importance := feature_importance d0;
               contamination := contamination d0 |} in
  let c' := {| c_model := model d; c_is_fitted := is_fitted d;
               feature_names := feature_names c0;
               risk_levels := risk_levels c0 |} in
  detector_load_model d0 path fs1 = (d', Raises (KeyError "feature_importance")) ∧
  classifier_load_model c0 path fs2 = (c', Raises (KeyError "feature_names")) ∧
  (∀ X, detector_predict d' X = classifier_predict c X) ∧
  (∀ X, classifier_predict c' X = detector_predict d X) ∧
  (∀ missing, fs !! missing = None →
     detector_load_model d0 missing fs = (d0, Raises (FileNotFoundError missing)) ∧
     classifier_load_model c0 missing fs = (c0, Raises (FileNotFoundError missing))).
Proof.
  intros Hc Hd. cbn zeta.
  apply joblib_dump_Returns in Hc as [_ Hc], Hd as [_ Hd].
  split; [unfold detector_load_model; by rewrite Hc|].
  split; [unfold classifier_load_model; by rewrite Hd|].
  split; [done|]. split; [done|].
  intros missing Hm.
  unfold detector_load_model, classifier_load_model, joblib_load, disk in *.
  by rewrite Hm.
Qed.

(** [load_scaler] sets [is_fitted] whatever was saved: a preprocessor
    that loads the scaler of one that was never fitted passes the check
    of [transform] and hands the unfitted scaler to scikit-learn, with
    its own [feature_columns].  A detector saved before [fit] and loaded
    again still raises the ValueError of [predict]. *)
Theorem load_scaler_marks_fitted (path : string) (fs : disk) (p0 : preprocessor)
    (d0 : detector) (contamination random_state : obj) :
  writable path = true →
  (∀ df, transform preprocessor_init df
         = Raises (ValueError "Preprocessor not fitted. Call fit_transform first.")) ∧
  (∃ fs' p', save_scaler preprocessor_init path fs = Returns fs' ∧
             load_scaler p0 path fs' = (p', Returns tt) ∧
             p_is_fitted p' = Bool true ∧
             ∀ df, transform p' df
                   = scale (Estimator StandardScaler) (feature_columns p0) df) ∧
  (∃ fs' d', detector_save_model (detector_init contamination random_state) path fs
               = Returns fs' ∧
             detector_load_model d0 path fs' = (d', Returns tt) ∧
             ∀ X, detector_predict d' X
                  = Raises (ValueError "Model not fitted. Call fit() first.")).
Proof.
  intros Hw. split; [done|]. split.
  - unfold save_scaler, load_scaler, pickle_dump, pickle_load, disk. rewrite Hw.
    eexists _, _. split; [done|]. rewrite lookup_insert_eq. done.
  - destruct (joblib_round_trip
      (Dict (list_to_map [("model", model (detector_init contamination random_state));
                          ("is_fitted", Bool false);
                          ("feature_importance", NoneObj);
                          ("contamination", contamination)])) path fs Hw)
      as [Hd Hl].
    eexists _, _. split; [exact Hd|]. split.
    + unfold detector_load_model. rewrite Hl. reflexivity.
    + done.
Qed.


End EstimatorFacts.

Section EstimatorWitnesses.

Import Estimators.

#[local] Existing Instance counting_objects.
#[local] Existing Instance counting_libraries.

Lemma save_load_round_trip_witness :
  ∃ fs', detector_save_model trained_detector "models/anomaly_detector.pkl" ∅
         = Returns fs' ∧
         detector_load_model new_detector "models/anomaly_detector.pkl" fs'
         = (trained_detector, Returns tt).
Proof.
  assert (Hw : writable "models/anomaly_detector.pkl" = true) by reflexivity.
  destruct (save_load_round_trip "models/anomaly_detector.pkl" ∅
              trained_detector new_detector trained_classifier new_classifier Hw)
    as [(fs' & Hs & Hl & _) _].
  exists fs'. split; [exact Hs | exact Hl].
Defined.

Lemma load_model_is_not_atomic_witness :
  ∃ d', detector_load_model new_detector "models/anomaly_detector.pkl"
          (<["models/anomaly_detector.pkl" :=
               ByJoblib (Dict (list_to_map [
                 ("model", c_model trained_classifier);
                 ("is_fitted", c_is_fitted trained_classifier);
                 ("feature_names", feature_names trained_classifier);
                 ("risk_levels", risk_levels trained_classifier)]))]> ∅)
        = (d', Raises (KeyError "feature_importance")) ∧
        is_fitted d' = Bool true ∧
        detector_predict d' [7] = classifier_predict trained_classifier [7].
Proof.
  assert (Hc : classifier_save_model trained_classifier
                 "models/anomaly_detector.pkl" ∅
               = Returns (<["models/anomaly_detector.pkl" :=
                   ByJoblib (Dict (list_to_map [
                     ("model", c_model trained_classifier);
                     ("is_fitted", c_is_fitted trained_classifier);
                     ("feature_names", feature_names trained_classifier);
                     ("risk_levels", risk_levels trained_classifier)]))]> ∅))
    by reflexivity.
  assert (Hs : detector_save_model trained_detector
                 "models/anomaly_detector.pkl" ∅
               = Returns (<["models/anomaly_detector.pkl" :=
                   ByJoblib (Dict (list_to_map [
                     ("model", model trained_detector);
                     ("is_fitted", is_fitted trained_detector);
                     ("feature_importance", feature_importance trained_detector);
                     ("contamination", contamination trained_detector)]))]> ∅))
    by reflexivity.
  destruct (load_model_is_not_atomic "models/anomaly_detector.pkl" ∅ _ _
              trained_detector new_detector trained_classifier new_classifier
              Hc Hs) as (Hd & _ & Hp & _).
  eexists. split; [exact Hd|]. split; [reflexivity | apply Hp].
Defined.

Lemma load_scaler_marks_fitted_witness :
  ∃ fs' p', save_scaler preprocessor_init "models/scaler.pkl" ∅ = Returns fs' ∧
            load_scaler preprocessor_init "models/scaler.pkl" fs'
            = (p', Returns tt) ∧
            p_is_fitted p' = Bool true.
Proof.
  assert (Hw : writable "models/scaler.pkl" = true) by reflexivity.
  destruct (load_scaler_marks_fitted "models/scaler.pkl" ∅ preprocessor_init
              new_detector (Float 0.05) (Int 42) Hw)
    as (_ & (fs' & p' & Hs & Hl & Hf & _) & _).
  exists fs', p'. auto.
Defined.

End EstimatorWitnesses.

(** ** Several users *)

Import Simulator.

Lemma pretty_N_go_head (x : N) (s : string) :
  (0 < x)%N → ∃ c s', pretty_N_go x s = String c s' ∧ String c "" ≠ "0".
Proof.
  revert s. induction (N.lt_wf_0 x) as [x _ IH]; intros s Hx.
  rewrite pretty_N_go_step by done.
  destruct (decide (x `div` 10 = 0)%N) as [Hd|Hd].
  - rewrite Hd, pretty_N_go_0. eexists _, _. split; [done|].
    assert (x < 10)%N.
    { destruct (N.lt_ge_cases x 10) as [|Hge]; [done|].
      pose proof (N.div_str_pos x 10). lia. }
    rewrite N.mod_small by done.
    assert (x = 1 ∨ x = 2 ∨ x = 3 ∨ x = 4 ∨ x = 5 ∨ x = 6 ∨ x = 7 ∨ x = 8 ∨ x = 9)%N
      as Hc by lia.
    destruct Hc as [->|[->|[->|[->|[->|[->|[->|[->| ->]]]]]]]]; done.
  - apply IH; [apply N.div_lt; lia|]. by apply N.neq_0_lt_0.
Qed.

Lemma pretty_head (n : nat) :
  ∃ c s, pretty (S n) = String c s ∧ String c "" ≠ "0".
Proof.
  unfold pretty, pretty_nat, pretty, pretty_N.
  destruct (decide (N.of_nat (S n) = 0)%N) as [?|_]; [lia|].
  apply pretty_N_go_head. lia.
Qed.

Lemma zfill_3_inj (a b : nat) :
  zfill 3 (pretty (S a)) = zfill 3 (pretty (S b)) → a = b.
Proof.
  destruct (pretty_head a) as (ca & sa & Ha & Hca),
    (pretty_head b) as (cb & sb & Hb & Hcb).
  intros Hz. assert (pretty (S a) = pretty (S b)) as Hp.
  { rewrite Ha, Hb in *. revert Hz. unfold zfill. cbn [String.length].
    destruct sa as [|? [|? ?]], sb as [|? [|? ?]]; cbn; intros [=]; congruence. }
  apply (inj pretty) in Hp. lia.
Qed.

Lemma user_name_inj (i j : nat) : user_name i = user_name j → i = j.
Proof.
  unfold user_name. intros Hn. apply zfill_3_inj.
  by simplify_eq/=.
Qed.

Lemma concat_chunks_lookup {A} (f : nat → list A) (m n s i k : nat) :
  (∀ j, length (f j) = m) → (i < n)%nat → (k < m)%nat →
  concat (map f (seq s n)) !! (i * m + k)%nat = f (s + i)%nat !! k.
Proof.
  intros Hlen. revert s i. induction n as [|n IH]; intros s i Hi Hk; [lia|].
  cbn [seq map concat]. destruct i as [|i].
  - rewrite Nat.add_0_r. cbn. rewrite lookup_app_l by (rewrite Hlen; lia). done.
  - rewrite lookup_app_r by (rewrite Hlen; lia). rewrite Hlen.
    replace (S i * m + k - m)%nat with (i * m + k)%nat by lia.
    rewrite IH by lia. by replace (S s + i)%nat with (s + S i)%nat by lia.
Qed.

Lemma concat_chunks_length {A} (f : nat → list A) (m n s : nat) :
  (∀ j, length (f j) = m) → length (concat (map f (seq s n))) = (n * m)%nat.
Proof.
  intros Hlen. revert s. induction n as [|n IH]; intros s; [done|].
  cbn [seq map concat]. rewrite length_app, Hlen, IH. lia.
Qed.

Section MultiUser.

Context {datetime : Type} (plus_5_minutes : datetime → datetime)
  (round1 : float → float).

(** [generate_multi_user_data] raises ValueError when [num_users] is
    zero or negative.  Otherwise the frame has [num_users] times
    [records_per_user] rows, user after user: row [k] of user [i] has the
    id of that user, a time stamp [k] steps of five minutes after the
    clock at the start of that user, and is made of draws no other row
    uses.  Two users never share an id. *)
Theorem multi_user_frame (rng : nat → draws) (now : nat → datetime)
    (num_users records_per_user : Z) :
  let result := generate_multi_user_data datetime plus_5_minutes round1
                  rng now num_users records_per_user in
  let m := Z.to_nat records_per_user in
  (num_users ≤ 0 → result = ValueError datetime "No objects to concatenate") ∧
  (0 < num_users →
     ∃ df, result = Frame datetime df ∧
       length df = (Z.to_nat num_users * m)%nat ∧
       ∀ i k, (i < Z.to_nat num_users)%nat → (k < m)%nat →
         df !! (i * m + k)%nat
         = Some (record datetime round1 (PyStr (user_name i))
                   (Nat.iter k plus_5_minutes (now i)) (rng (i * m + k)%nat))) ∧
  (∀ i j, user_name i = user_name j → i = j).
Proof.
  cbn zeta. split; [|split; [|apply user_name_inj]].
  - intros Hn. unfold generate_multi_user_data.
    by replace (Z.to_nat num_users) with O by lia.
  - intros Hn. unfold generate_multi_user_data.
    set (f := λ i : nat, generate_user_data datetime plus_5_minutes round1
                (λ k, rng (i * Z.to_nat records_per_user + k)%nat) (now i)
                (PyStr (user_name i)) records_per_user None).
    assert (Hlen : ∀ j, length (f j) = Z.to_nat records_per_user).
    { intros j. apply loop_length. }
    destruct (Z.to_nat num_users) as [|n] eqn:Hu; [lia|].
    exists (concat (map f (seq 0 (S n)))). split; [done|]. split.
    + by apply concat_chunks_length.
    + intros i k Hi Hk. rewrite (concat_chunks_lookup f _ _ 0 i k Hlen Hi Hk).
      cbn [plus]. unfold f, generate_user_data. by rewrite loop_lookup.
Qed.

End MultiUser.

Example user_name_edge :
  user_name 0 = "user_001" ∧ user_name 41 = "user_042" ∧
  user_name 998 = "user_999" ∧ user_name 999 = "user_1000".
Proof. repeat split; vm_compute; reflexivity. Qed.

(** ** The Gemini advisor *)

Section GeminiFacts.

Import Gemini.

Context `{Services}.

Lemma all_in_required (j : json) :
  all_in required_keys j = Returns true →
  (∃ d, j = JObject d ∧ is_Some (d !! "summary") ∧ is_Some (d !! "key_findings") ∧
        is_Some (d !! "recommendations")) ∨
  (∃ l, j = JArray l ∧ Forall (λ k, JString k ∈ l) required_keys) ∨
  (∃ s, j = JString s ∧ Forall (λ k, contains k s = true) required_keys).
Proof.
  unfold required_keys. destruct j as [|b|n|s|l|d]; cbn; try done.
  - intros Hs. right. right. exists s. split; [done|].
    repeat case_match; try done. repeat constructor; done.
  - intros Hl. right. left. exists l. split; [done|].
    assert (Hin : ∀ k, existsb (λ x, match x with
                                     | JString s => String.eqb s k
                                     | _ => false
                                     end) l = true → JString k ∈ l).
    { intros k Hk. apply existsb_exists in Hk as (x & Hx & Hk).
      destruct x; try done. apply String.eqb_eq in Hk as ->.
      by apply list_elem_of_In. }
    repeat case_match; try done. repeat constructor; by apply Hin.
  - intros Hd. left. exists d. split; [done|].
    repeat case_match; try done.
    repeat match goal with
           | H : bool_decide _ = true |- _ => apply bool_decide_eq_true in H
           end. done.
Qed.

(** The advisor has no fallback of its own.  [generate_comprehensive_insights]
    returns only what the service answered, read as JSON and passed by
    the check of the three keys; whatever goes wrong, in the prompt, in
    the request, in the JSON or in the check, it raises AttributeError
    for the missing [_fallback_recommendations], never the original
    error and never a rule-based answer.  The check of the keys also
    passes a JSON list or string that mentions the three names. *)
Theorem advisor_has_no_fallback (self : advisor) (health_data : gmap string pyval)
    (anomaly_status risk_level : string)
    (historical_trends : option (gmap string (list num))) :
  match generate_comprehensive_insights self health_data anomaly_status
          risk_level historical_trends with
  | Returns insights =>
      (∃ prompt text,
         create_health_analysis_prompt health_data anomaly_status risk_level
           historical_trends = Returns prompt ∧
         generate_content (model self) prompt = Returns text ∧
         parse_gemini_response text = Returns insights) ∧
      ((∃ d, insights = JObject d ∧ is_Some (d !! "summary") ∧
             is_Some (d !! "key_findings") ∧ is_Some (d !! "recommendations")) ∨
       (∃ l, insights = JArray l ∧ Forall (λ k, JString k ∈ l) required_keys) ∨
       (∃ s, insights = JString s ∧ Forall (λ k, contains k s = true) required_keys))
  | Raises e => e = AttributeError "_fallback_recommendations"
  end.
Proof.
  unfold generate_comprehensive_insights.
  destruct (create_health_analysis_prompt _ _ _ _) as [prompt|e] eqn:Hc; [|done].
  destruct (generate_content _ _) as [text|e] eqn:Hg; [|done].
  destruct (parse_gemini_response text) as [insights|e] eqn:Hp; [|done].
  split; [by exists prompt, text|].
  apply all_in_required. revert Hp. unfold parse_gemini_response.
  destruct (json_loads _) as [j|?]; [|done].
  destruct (all_in required_keys j) as [[]|?] eqn:Ha; [|done..].
  by intros [= <-].
Qed.

(** The constructor asks the client library for a model only with a key
    that is not empty: the argument if it is one, else the environment
    variable GEMINI_API_KEY; it raises ValueError exactly when neither
    gives one.  An empty argument does not hide the variable. *)
Theorem advisor_needs_a_key (environ : gmap string string) (key : option string) :
  let chosen := if bool_decide (key = None ∨ key = Some "")
                then environ !! "GEMINI_API_KEY" else key in
  match advisor_init environ key with
  | Returns self =>
      chosen = Some (api_key self) ∧ api_key self ≠ "" ∧
      connect (api_key self) = Returns (model self)
  | Raises e =>
      (chosen = None ∨ chosen = Some "") ∧ (∃ msg, e = ValueError msg) ∨
      (∃ k, chosen = Some k ∧ k ≠ "" ∧ connect k = Raises e)
  end.
Proof.
  cbn zeta. unfold advisor_init.
  destruct key as [[|c k]|]; cbn.
  - destruct (environ !! "GEMINI_API_KEY") as [[|c k]|] eqn:He; cbn; eauto 6.
    destruct (connect (String c k)) eqn:Hc; cbn; eauto 8.
  - destruct (connect (String c k)) eqn:Hc; cbn; eauto 8.
  - destruct (environ !! "GEMINI_API_KEY") as [[|c k]|] eqn:He; cbn; eauto 6.
    destruct (connect (String c k)) eqn:Hc; cbn; eauto 8.
Qed.

End GeminiFacts.

Example validation_passes_a_list :
  @Gemini.generate_comprehensive_insights Gemini.names_service
    Gemini.names_advisor ∅ "Normal" "Low Risk" None
  = Gemini.Returns Gemini.names_only.
Proof. reflexivity. Qed.
